(** * The creep-experiment sensor scraper (src/scraper.py), embedded in Rocq

    The Python class [SensorAPIMonitor] polls a remote endpoint, refreshes a
    session token from the browser's cookie store, derives elapsed time and
    strain, and appends one row per cycle to a CSV journal.

    The embedding follows the source method by method.  Mutable object state
    ([self.form_data], the session's cookie jar), the file system and the
    observable effects (log calls, posted requests, sleeps) are threaded
    through an exception-and-state monad; the outcomes of the calls into the
    environment (cookie store, HTTP transport, wall clock, [open]) are
    supplied by per-call environment records.  Python floats are IEEE-754
    binary64 numbers, modelled exactly. *)

From Stdlib Require Import ZArith Lia Bool List String Ascii.
From Stdlib Require Import Floats.SpecFloat.
From stdpp Require Import base option list gmap strings.

Local Open Scope string_scope.
Local Open Scope list_scope.
Local Open Scope Z_scope.

(* ===================================================================== *)
(** * Binary64 floating point, by exact rounding of rationals            *)
(* ===================================================================== *)

(** A Python [float] is a binary64 number.  Every arithmetic operation of
    IEEE 754 returns the exact real result rounded to the nearest
    representable number, ties to even, so all operations below go through
    one function, [of_ratio], that rounds a rational [a / b].  Values use the
    Standard Library's [spec_float] in canonical form: 53-bit mantissas with
    exponents in [-1074 .. 971], subnormals at exponent [-1074]. *)

Abbreviation float := spec_float.

Definition emin : Z := -1074.
Definition emax_finite : Z := 971.

(** Nearest integer to [a / b] ([0 <= a], [0 < b]), ties to even. *)
Definition div_half_even (a b : Z) : Z :=
  let q := a / b in
  match 2 * (a mod b) ?= b with
  | Lt => q
  | Gt => q + 1
  | Eq => if Z.even q then q else q + 1
  end.

(** [floor (log2 (a / b))] for positive [a], [b]. *)
Definition ilog2_ratio (a b : Z) : Z :=
  let k := Z.log2 a - Z.log2 b in
  if b * 2 ^ Z.max 0 k <=? a * 2 ^ Z.max 0 (- k) then k else k - 1.

(** The binary64 number nearest to [a / b] with sign [s] ([0 < a], [0 < b]):
    the exponent is chosen so that the mantissa has 53 bits (or is clamped to
    the subnormal exponent), the mantissa is rounded half-even, a mantissa
    that rounds up to [2^53] is renormalised, and a result beyond the largest
    finite number overflows to infinity. *)
Definition round_pos (s : bool) (a b : Z) : float :=
  let e := Z.max emin (ilog2_ratio a b - 52) in
  let m := div_half_even (a * 2 ^ Z.max 0 (- e)) (b * 2 ^ Z.max 0 e) in
  let '(m, e) := if m =? 2 ^ 53 then (2 ^ 52, e + 1) else (m, e) in
  match m with
  | Zpos p => if e <=? emax_finite then S754_finite s p e else S754_infinity s
  | _ => S754_zero s
  end.

(** Nearest binary64 number to the rational [a / b], [0 < b]. *)
Definition of_ratio (a b : Z) : float :=
  match a with
  | Z0 => S754_zero false
  | Zpos _ => round_pos false a b
  | Zneg _ => round_pos true (- a) b
  end.

(** The decimal literal [n * 10^-k], as the Python and JSON parsers read it
    (correctly rounded). *)
Definition decimal (n : Z) (k : nat) : float := of_ratio n (10 ^ Z.of_nat k).

(** A finite float [m * 2^e] as the fraction [fnum / fden]. *)
Definition fnum (m : positive) (e : Z) : Z := Zpos m * 2 ^ Z.max 0 e.
Definition fden (e : Z) : Z := 2 ^ Z.max 0 (- e).

Definition signed (s : bool) (z : Z) : Z := if s then - z else z.

Definition fneg (x : float) : float :=
  match x with
  | S754_zero s => S754_zero (negb s)
  | S754_infinity s => S754_infinity (negb s)
  | S754_nan => S754_nan
  | S754_finite s m e => S754_finite (negb s) m e
  end.

(** [x * y]. *)
Definition fmul (x y : float) : float :=
  match x, y with
  | S754_nan, _ | _, S754_nan => S754_nan
  | S754_infinity _, S754_zero _ | S754_zero _, S754_infinity _ => S754_nan
  | S754_infinity sx, S754_infinity sy
  | S754_infinity sx, S754_finite sy _ _
  | S754_finite sx _ _, S754_infinity sy => S754_infinity (xorb sx sy)
  | S754_zero sx, S754_zero sy
  | S754_zero sx, S754_finite sy _ _
  | S754_finite sx _ _, S754_zero sy => S754_zero (xorb sx sy)
  | S754_finite sx mx ex, S754_finite sy my ey =>
      round_pos (xorb sx sy) (fnum mx ex * fnum my ey) (fden ex * fden ey)
  end.

(** [x / y] for a non-zero divisor (Python raises on a zero divisor before
    the hardware division is reached, see [py_truediv]). *)
Definition fdiv (x y : float) : float :=
  match x, y with
  | S754_nan, _ | _, S754_nan => S754_nan
  | S754_infinity _, S754_infinity _ => S754_nan
  | S754_zero _, S754_zero _ => S754_nan
  | S754_infinity sx, S754_zero sy
  | S754_infinity sx, S754_finite sy _ _
  | S754_finite sx _ _, S754_zero sy => S754_infinity (xorb sx sy)
  | S754_zero sx, S754_infinity sy
  | S754_zero sx, S754_finite sy _ _
  | S754_finite sx _ _, S754_infinity sy => S754_zero (xorb sx sy)
  | S754_finite sx mx ex, S754_finite sy my ey =>
      round_pos (xorb sx sy) (fnum mx ex * fden ey) (fden ex * fnum my ey)
  end.

(** [x + y]; an exact zero sum of opposite operands is [+0]. *)
Definition fadd (x y : float) : float :=
  match x, y with
  | S754_nan, _ | _, S754_nan => S754_nan
  | S754_infinity sx, S754_infinity sy =>
      if Bool.eqb sx sy then x else S754_nan
  | S754_infinity _, _ => x
  | _, S754_infinity _ => y
  | S754_zero sx, S754_zero sy => S754_zero (sx && sy)
  | S754_zero _, _ => y
  | _, S754_zero _ => x
  | S754_finite sx mx ex, S754_finite sy my ey =>
      of_ratio (signed sx (fnum mx ex) * fden ey + signed sy (fnum my ey) * fden ex)
               (fden ex * fden ey)
  end.

Definition fsub (x y : float) : float := fadd x (fneg y).

(** Comparison of the exact values; [None] when a NaN is involved. *)
Definition fcompare (x y : float) : option comparison :=
  match x, y with
  | S754_nan, _ | _, S754_nan => None
  | S754_infinity sx, S754_infinity sy =>
      Some (if Bool.eqb sx sy then Eq else if sx then Lt else Gt)
  | S754_infinity s, _ => Some (if s then Lt else Gt)
  | _, S754_infinity s => Some (if s then Gt else Lt)
  | S754_zero _, S754_zero _ => Some Eq
  | S754_zero _, S754_finite s _ _ => Some (if s then Gt else Lt)
  | S754_finite s _ _, S754_zero _ => Some (if s then Lt else Gt)
  | S754_finite sx mx ex, S754_finite sy my ey =>
      Some (signed sx (fnum mx ex) * fden ey ?= signed sy (fnum my ey) * fden ex)
  end.

Definition flt (x y : float) : bool :=
  match fcompare x y with Some Lt => true | _ => false end.
Definition fis_zero (x : float) : bool :=
  match x with S754_zero _ => true | _ => false end.

(** [float.__round__(x, ndigits)] for [0 <= ndigits]: the exact binary value
    is rounded half-even to [ndigits] decimals and the decimal result is
    read back as the nearest float; the sign is kept (so a negative value
    that rounds to zero gives [-0.0]); infinities and NaN round to
    themselves. *)
Definition fround (x : float) (ndigits : nat) : float :=
  match x with
  | S754_finite s m e =>
      let n := div_half_even (fnum m e * 10 ^ Z.of_nat ndigits) (fden e) in
      match n with
      | Zpos _ => round_pos s n (10 ^ Z.of_nat ndigits)
      | _ => S754_zero s
      end
  | _ => x
  end.

(* ===================================================================== *)
(** * Exceptions                                                          *)
(* ===================================================================== *)

(** The exception classes that the calls of the source can raise, with the
    base classes they have in Python 3, [json], [requests] (2.27 and later)
    and [browser_cookie3].  [requests.exceptions.JSONDecodeError], which
    [Response.json()] raises on an unparsable body, derives from both
    [InvalidJSONError] (a [RequestException]) and [json.JSONDecodeError].
    Asynchronous interrupts ([KeyboardInterrupt], [SystemExit]) are outside
    the embedding: every class here derives from [Exception]. *)
Inductive exn : Set :=
  | Exception_
  | TypeError | AttributeError | LookupError | KeyError
  | ValueError | ArithmeticError | ZeroDivisionError | OverflowError
  | OSError | PermissionError | FileNotFoundError | IsADirectoryError
  | JSONDecodeError
  | RequestException | HTTPError | ConnectionError | Timeout
  | ConnectTimeout | ReadTimeout | TooManyRedirects
  | InvalidJSONError | RequestsJSONDecodeError
  | BrowserCookieError.

#[global] Instance exn_eq_dec : EqDecision exn.
Proof. solve_decision. Defined.

Definition bases (c : exn) : list exn :=
  match c with
  | Exception_ => []
  | TypeError | AttributeError | LookupError | ValueError
  | ArithmeticError | OSError | BrowserCookieError => [Exception_]
  | KeyError => [LookupError]
  | ZeroDivisionError | OverflowError => [ArithmeticError]
  | PermissionError | FileNotFoundError | IsADirectoryError => [OSError]
  | JSONDecodeError => [ValueError]
  | RequestException => [OSError]
  | HTTPError | ConnectionError | Timeout | TooManyRedirects
  | InvalidJSONError => [RequestException]
  | ConnectTimeout => [ConnectionError; Timeout]
  | ReadTimeout => [Timeout]
  | RequestsJSONDecodeError => [InvalidJSONError; JSONDecodeError]
  end.

(** A class and all classes it derives from. *)
Fixpoint ancestors (depth : nat) (c : exn) : list exn :=
  c :: match depth with
       | O => []
       | S d => flat_map (ancestors d) (bases c)
       end.

(** [isinstance(e, c)], the test an [except c] clause performs. *)
Definition isinstance (e c : exn) : bool :=
  bool_decide (c ∈ ancestors 6 e).

(** The outcome of a Python expression: a value or a raised exception. *)
Inductive res (A : Type) : Type :=
  | Ok (a : A)
  | Raise (e : exn).
Arguments Ok {A} a.
Arguments Raise {A} e.

Definition res_bind {A B} (r : res A) (k : A -> res B) : res B :=
  match r with
  | Ok a => k a
  | Raise e => Raise e
  end.

(* ===================================================================== *)
(** * Python values                                                       *)
(* ===================================================================== *)

(** The values [response.json()] can return and the ones stored in a sample
    dictionary.  A dictionary is an association list read by its first
    matching key. *)
#[warnings="-register-all"]
Inductive pyval : Type :=
  | PNone
  | PBool (b : bool)
  | PInt (z : Z)
  | PFloat (f : float)
  | PStr (s : string)
  | PList (l : list pyval)
  | PDict (d : list (string * pyval)).

Abbreviation dict := (list (string * pyval)).

Fixpoint dict_lookup (k : string) (d : dict) : option pyval :=
  match d with
  | [] => None
  | (k', v) :: d' => if String.eqb k k' then Some v else dict_lookup k d'
  end.

Definition dict_keys (d : dict) : list string := map fst d.

(** [needle in hay] on strings. *)
Fixpoint contains (needle hay : string) : bool :=
  if String.prefix needle hay then true
  else match hay with
       | EmptyString => false
       | String _ hay' => contains needle hay'
       end.

Definition lower_ascii (c : ascii) : ascii :=
  let n := nat_of_ascii c in
  if ((65 <=? n) && (n <=? 90))%nat then ascii_of_nat (n + 32) else c.

(** [str.lower()], on the ASCII letters (cookie names and domains). *)
Fixpoint lower (s : string) : string :=
  match s with
  | EmptyString => EmptyString
  | String c s' => String (lower_ascii c) (lower s')
  end.

Definition is_str (k : string) (v : pyval) : bool :=
  match v with
  | PStr s => String.eqb s k
  | _ => false
  end.

(** [k in v] for a string [k]: key membership in a dictionary, element
    membership in a list, substring test in a string, [TypeError] on a value
    that is not a container. *)
Definition py_contains (k : string) (v : pyval) : res bool :=
  match v with
  | PDict d => Ok (bool_decide (is_Some (dict_lookup k d)))
  | PList l => Ok (existsb (is_str k) l)
  | PStr s => Ok (contains k s)
  | _ => Raise TypeError
  end.

(** [v[k]] for a string [k]: only a dictionary can be indexed by a string. *)
Definition py_getitem (v : pyval) (k : string) : res pyval :=
  match v with
  | PDict d => match dict_lookup k d with
               | Some x => Ok x
               | None => Raise KeyError
               end
  | _ => Raise TypeError
  end.

(** [v.get(k, default)]: only dictionaries have the method. *)
Definition py_get (v : pyval) (k : string) (dflt : pyval) : res pyval :=
  match v with
  | PDict d => Ok (default dflt (dict_lookup k d))
  | _ => Raise AttributeError
  end.

(** Truth value of an object, as [if data:] tests it. *)
Definition py_truthy (v : pyval) : bool :=
  match v with
  | PNone => false
  | PBool b => b
  | PInt z => negb (z =? 0)
  | PFloat f => negb (fis_zero f)
  | PStr s => negb (String.eqb s "")
  | PList l => negb (bool_decide (l = []))
  | PDict d => match d with [] => false | _ => true end
  end.

(** Conversion of an [int] to [float]: correctly rounded, [OverflowError]
    beyond the float range. *)
Definition float_of_int (z : Z) : res float :=
  match of_ratio z 1 with
  | S754_infinity _ => Raise OverflowError
  | f => Ok f
  end.

(** [round(v, ndigits)]: an [int] is returned as it is, a [bool] as the
    [int] it denotes, a [float] rounded; other types have no [__round__]. *)
Definition py_round (v : pyval) (ndigits : nat) : res pyval :=
  match v with
  | PInt z => Ok (PInt z)
  | PBool b => Ok (PInt (if b then 1 else 0))
  | PFloat f => Ok (PFloat (fround f ndigits))
  | _ => Raise TypeError
  end.

(** [v / d] for a float divisor [d]: the numerator is converted to float,
    a zero divisor raises [ZeroDivisionError]. *)
Definition py_truediv (v : pyval) (d : float) : res float :=
  res_bind
    match v with
    | PInt z => float_of_int z
    | PBool b => Ok (of_ratio (if b then 1 else 0) 1)
    | PFloat f => Ok f
    | _ => Raise TypeError
    end
    (fun x => if fis_zero d then Raise ZeroDivisionError else Ok (fdiv x d)).

(** [format(v, '.1f')], as the success log line applies it to the
    temperature: defined on numbers only. *)
Definition py_format_1f (v : pyval) : res unit :=
  match v with
  | PInt z => res_bind (float_of_int z) (fun _ => Ok tt)
  | PBool _ | PFloat _ => Ok tt
  | PStr _ => Raise ValueError
  | _ => Raise TypeError
  end.

(** [int(x)] of a float: truncation toward zero. *)
Definition int_of_float (x : float) : res Z :=
  match x with
  | S754_zero _ => Ok 0
  | S754_finite s m e => Ok (signed s (fnum m e / fden e))
  | S754_infinity _ => Raise OverflowError
  | S754_nan => Raise ValueError
  end.

(* ===================================================================== *)
(** * Dates and times                                                     *)
(* ===================================================================== *)

(** An aware [datetime] is the instant it denotes, in microseconds since
    1970-01-01T00:00:00Z; a [timedelta] is a number of microseconds. *)
Abbreviation instant := Z.

Definition us_per_second : Z := 1000000.
Definition us_per_day : Z := 86400 * us_per_second.

(** Days since 1970-01-01 of a date of the proleptic Gregorian calendar. *)
Definition days_from_civil (y m d : Z) : Z :=
  let y := if m <=? 2 then y - 1 else y in
  let era := y / 400 in
  let yoe := y - era * 400 in
  let doy := (153 * (if 2 <? m then m - 3 else m + 9) + 2) / 5 + d - 1 in
  let doe := yoe * 365 + yoe / 4 - yoe / 100 + doy in
  era * 146097 + doe - 719468.

(** The inverse: (year, month, day) of a day number. *)
Definition civil_from_days (z : Z) : Z * Z * Z :=
  let z := z + 719468 in
  let era := z / 146097 in
  let doe := z - era * 146097 in
  let yoe := (doe - doe / 1460 + doe / 36524 - doe / 146096) / 365 in
  let doy := doe - (365 * yoe + yoe / 4 - yoe / 100) in
  let mp := (5 * doy + 2) / 153 in
  let d := doy - (153 * mp + 2) / 5 + 1 in
  let m := if mp <? 10 then mp + 3 else mp - 9 in
  (if m <=? 2 then yoe + era * 400 + 1 else yoe + era * 400, m, d).

(** [datetime(y, mo, d, h, mi, s, tzinfo=timezone.utc)]. *)
Definition datetime_utc (y mo d h mi s : Z) : instant :=
  (days_from_civil y mo d * 86400 + h * 3600 + mi * 60 + s) * us_per_second.

Definition digit (n : Z) : ascii := ascii_of_nat (48 + Z.to_nat n).
Definition two_digits (n : Z) : string :=
  String (digit (n / 10 mod 10)) (String (digit (n mod 10)) EmptyString).

(** [t.astimezone(timezone(timedelta(hours=1))).strftime("%d/%m")]. *)
Definition strftime_dm_bst (t : instant) : string :=
  let '(_, m, d) := civil_from_days ((t + 3600 * us_per_second) / us_per_day) in
  (two_digits d ++ "/" ++ two_digits m)%string.

(** [timedelta.total_seconds()]: the microseconds divided by [10**6] with
    Python's correctly rounded true division of integers. *)
Definition total_seconds (td : Z) : float := of_ratio td us_per_second.

(* ===================================================================== *)
(** * The monitor's state and effects                                     *)
(* ===================================================================== *)

(** A cookie as [browser_cookie3] returns it. *)
Record cookie : Type := Cookie {
  c_name : string;
  c_value : string;
  c_domain : string;
  c_path : string
}.

Inductive level : Set := DEBUG | INFO | WARNING | ERROR.

(** One constructor per logging call of the source. *)
Inductive message : Type :=
  | FoundPotentialSessionKey (key : string)
  | LoadedCookies (count : nat)
  | UpdatedApiSessionKey
  | NoSessionKeyFound
  | ErrorLoadingCookies (e : exn)
  | ContinuingWithDefault
  | SessionKeyUpdated (old : option string) (new : string)
  | SessionKeyUnchanged
  | ErrorUpdatingCookies (e : exn)
  | ApiSuccess (temperature length strain : pyval) (elapsed : Z)
  | UnexpectedResponseFormat (json_data : pyval)
  | ApiRequestFailed (e : exn)
  | JsonParseFailed (e : exn)
  | ErrorFetching (e : exn)
  | ErrorSaving (e : exn)
  | StartingMonitor (days : Z)
  | ApiUrl (url : string)
  | Interval (interval_seconds : Z)
  | StartTime (start_time : Z)
  | EndTime (end_time : Z)
  | Progress (count : nat) (remaining : Z)
  | UnexpectedError (e : exn)
  | MonitoringCompleted (count : nat)
  | DataSavedTo (file : string).

(** What the process does to the outside, in order. *)
Inductive event : Type :=
  | Log (lv : level) (m : message)
  | Post (url : string) (data : gmap string string)
  | Sleep (seconds : pyval).

(** A row handed to [csv.writer.writerow]; each is written as one line (no
    cell written by the monitor contains a line break). *)
Abbreviation row := (list pyval).

(** The object's attributes, the file system and the effects so far.
    [fetch_count] is the local counter of [run_for_duration]. *)
Record world : Type := World {
  output_file : string;
  original_length_mm : float;
  form_data : gmap string string;
  session_cookies : gmap (string * string * string) string;
  fetch_count : nat;
  files : gmap string (list row);
  trace : list event
}.

Definition api_url : string :=
  "https://learn5.open.ac.uk/mod/htmlactivity/api/service.php".

(** Experiment start: 11 August 2025, 11:00 UTC. *)
Definition experiment_start : instant := datetime_utc 2025 8 11 11 0 0.

Definition default_form_data : gmap string string :=
  <["a" := "default"]> (<["c" := "3"]> (<["i" := "t193_creep_capture"]>
  (<["s" := "yWYFUnYGAQ"]> (<["x" := "service"]> (<["service" := "creep"]>
  (<["names" := "action"]> (<["values" := "getUpdate"]> ∅))))))).

Definition csv_header : row :=
  [PStr "Date"; PStr "Elapsed Time (s)"; PStr "Change in Length (mm)";
   PStr "% Strain"].

Definition set_form_data (fd : gmap string string) (w : world) : world :=
  World (output_file w) (original_length_mm w) fd (session_cookies w)
        (fetch_count w) (files w) (trace w).
Definition set_session_cookies (j : gmap (string * string * string) string)
    (w : world) : world :=
  World (output_file w) (original_length_mm w) (form_data w) j
        (fetch_count w) (files w) (trace w).
Definition set_fetch_count (n : nat) (w : world) : world :=
  World (output_file w) (original_length_mm w) (form_data w)
        (session_cookies w) n (files w) (trace w).
Definition set_files (fs : gmap string (list row)) (w : world) : world :=
  World (output_file w) (original_length_mm w) (form_data w)
        (session_cookies w) (fetch_count w) fs (trace w).
Definition set_trace (t : list event) (w : world) : world :=
  World (output_file w) (original_length_mm w) (form_data w)
        (session_cookies w) (fetch_count w) (files w) t.

(** Computations that read and mutate the world and may raise; mutations
    made before an exception stay, as in Python. *)
Definition M (A : Type) : Type := world -> res A * world.

#[global] Instance M_ret : MRet M := fun A a w => (Ok a, w).
#[global] Instance M_bind : MBind M := fun A B k c w =>
  match c w with
  | (Ok a, w') => k a w'
  | (Raise e, w') => (Raise e, w')
  end.

Definition raise {A} (e : exn) : M A := fun w => (Raise e, w).
Definition lift {A} (r : res A) : M A := fun w => (r, w).
Definition get : M world := fun w => (Ok w, w).
Definition modify (f : world -> world) : M unit := fun w => (Ok tt, f w).
Definition emit (ev : event) : M unit :=
  modify (fun w => set_trace (trace w ++ [ev]) w).
Definition log (lv : level) (m : message) : M unit := emit (Log lv m).

(** [try: c  except C1 as e: h1 e  except C2 as e: h2 e ...]: the first
    clause whose class the exception is an instance of handles it. *)
Definition try_except {A} (c : M A) (handlers : list (exn * (exn -> M A)))
    : M A := fun w =>
  match c w with
  | (Ok a, w') => (Ok a, w')
  | (Raise e, w') =>
      match find (fun h => isinstance e (fst h)) handlers with
      | Some h => snd h e w'
      | None => (Raise e, w')
      end
  end.

(* ===================================================================== *)
(** * Credentials                                                         *)
(* ===================================================================== *)

Definition is_ou_cookie (c : cookie) : bool :=
  contains "open.ac.uk" (lower (c_domain c)).

Definition is_session_cookie (c : cookie) : bool :=
  contains "session" (lower (c_name c)) || String.eqb (c_name c) "s".

(** [self.session.cookies.set(name, value, domain=..., path=... or '/')]. *)
Definition session_cookies_set (c : cookie) : M unit :=
  modify (fun w =>
    set_session_cookies
      (<[(c_domain c, if String.eqb (c_path c) "" then "/" else c_path c,
          c_name c) := c_value c]> (session_cookies w)) w).

Definition form_data_set (k v : string) : M unit :=
  modify (fun w => set_form_data (<[k := v]> (form_data w)) w).

(** The [for] loop of [load_chrome_cookies], with its two local variables. *)
Fixpoint load_loop (cs : list cookie) (cookie_count : nat)
    (session_key : option string) : M (nat * option string) :=
  match cs with
  | [] => mret (cookie_count, session_key)
  | c :: cs' =>
      session_cookies_set c ;;
      if is_session_cookie c then
        log INFO (FoundPotentialSessionKey (c_value c)) ;;
        load_loop cs' (S cookie_count) (Some (c_value c))
      else load_loop cs' (S cookie_count) session_key
  end.

(** [load_chrome_cookies]; [chrome] is the outcome of
    [browser_cookie3.chrome()]. *)
Definition load_chrome_cookies (chrome : res (list cookie)) : M unit :=
  try_except
    (all_chrome_cookies ← lift chrome;
     let ou_cookies := filter (fun c => is_ou_cookie c = true) all_chrome_cookies in
     '(cookie_count, session_key) ← load_loop ou_cookies 0%nat None;
     log INFO (LoadedCookies cookie_count) ;;
     match session_key with
     | Some key =>
         if String.eqb key "" then log WARNING NoSessionKeyFound
         else form_data_set "s" key ;; log INFO UpdatedApiSessionKey
     | None => log WARNING NoSessionKeyFound
     end)
    [(Exception_, fun e =>
        log ERROR (ErrorLoadingCookies e) ;; log INFO ContinuingWithDefault)].

(** The [for] loop of [update_session_key_from_cookies]. *)
Fixpoint update_loop (cs : list cookie) (session_key_updated : bool)
    : M bool :=
  match cs with
  | [] => mret session_key_updated
  | c :: cs' =>
      session_cookies_set c ;;
      if is_session_cookie c then
        w ← get;
        if bool_decide (Some (c_value c) ≠ form_data w !! "s") then
          log INFO (SessionKeyUpdated (form_data w !! "s") (c_value c)) ;;
          form_data_set "s" (c_value c) ;;
          update_loop cs' true
        else update_loop cs' session_key_updated
      else update_loop cs' session_key_updated
  end.

(** [update_session_key_from_cookies]. *)
Definition update_session_key_from_cookies (chrome : res (list cookie))
    : M unit :=
  try_except
    (all_chrome_cookies ← lift chrome;
     let ou_cookies := filter (fun c => is_ou_cookie c = true) all_chrome_cookies in
     session_key_updated ← update_loop ou_cookies false;
     if negb session_key_updated then log DEBUG SessionKeyUnchanged
     else mret tt)
    [(Exception_, fun e => log WARNING (ErrorUpdatingCookies e))].

(* ===================================================================== *)
(** * Fetching a sample                                                   *)
(* ===================================================================== *)

(** What [requests] hands back: the status and the outcome of
    [response.json()]. *)
Record response : Type := Response {
  status_code : Z;
  json : res pyval
}.

(** The environment of one call of [fetch_sensor_data]: the cookie store,
    the transport, and the wall clock as read on the success path
    ([now_success], line 156) and by [create_error_record] ([now_error]). *)
Record fetch_env : Type := FetchEnv {
  chrome : res (list cookie);
  post : res response;
  now_success : instant;
  now_error : instant
}.

(** [response.raise_for_status()]: [HTTPError] on a 4xx or 5xx status. *)
Definition raise_for_status (r : response) : M unit :=
  if (400 <=? status_code r) && (status_code r <? 600) then raise HTTPError
  else mret tt.

(** [int((now - self.experiment_start).total_seconds())]. *)
Definition calculated_elapsed_seconds (now : instant) : res Z :=
  int_of_float (total_seconds (now - experiment_start)).

(** [create_error_record(error_type)], with the clock reading it takes. *)
Definition create_error_record (error_type : string) (now : instant)
    : M pyval :=
  elapsed ← lift (calculated_elapsed_seconds now);
  mret (PDict
    [("date", PStr (strftime_dm_bst now));
     ("elapsed_seconds", PInt elapsed);
     ("change_in_length_mm", PFloat (S754_zero false));
     ("strain_percent", PFloat (S754_zero false));
     ("running", PBool false);
     ("temperature", PInt 0);
     ("status_code", PStr ("ERROR_" ++ error_type)%string)]).

(** The [try] block of [fetch_sensor_data]. *)
Definition fetch_body (env : fetch_env) : M pyval :=
  update_session_key_from_cookies (chrome env) ;;
  w ← get;
  emit (Post api_url (form_data w)) ;;
  response ← lift (post env);
  raise_for_status response ;;
  raise_for_status response ;;
  json_data ← lift (json response);
  has_ok ← lift (py_contains "ok" json_data);
  has_data ← (if has_ok : bool then
                ok ← lift (py_getitem json_data "ok");
                lift (py_contains "data" ok)
              else mret false);
  if has_data : bool then
    ok ← lift (py_getitem json_data "ok");
    sensor_data ← lift (py_getitem ok "data");
    let current_time := now_success env in
    elapsed ← lift (calculated_elapsed_seconds current_time);
    api_elapsed_raw ← lift (py_get sensor_data "elapsed" (PInt 0));
    extension_mm ← lift (py_get sensor_data "extension" (PInt 0));
    change_in_length ← lift (py_round extension_mm 3);
    ratio ← lift (py_truediv change_in_length (original_length_mm w));
    let strain_percent := fround (fmul ratio (of_ratio 100 1)) 3 in
    let date_formatted := strftime_dm_bst current_time in
    running ← lift (py_get sensor_data "running" (PBool false));
    temperature ← lift (py_get sensor_data "temperature" (PInt 0));
    let data :=
      [("date", PStr date_formatted);
       ("elapsed_seconds", PInt elapsed);
       ("change_in_length_mm", change_in_length);
       ("strain_percent", PFloat strain_percent);
       ("running", running);
       ("temperature", temperature);
       ("status_code", PInt (status_code response))] in
    lift (py_format_1f temperature) ;;
    log INFO (ApiSuccess temperature change_in_length
                (PFloat strain_percent) elapsed) ;;
    mret (PDict data)
  else
    log ERROR (UnexpectedResponseFormat json_data) ;;
    create_error_record "API_FORMAT_ERROR" (now_error env).

(** [fetch_sensor_data]: the [try] block and its three [except] clauses,
    in the order of the source. *)
Definition fetch_sensor_data (env : fetch_env) : M pyval :=
  try_except (fetch_body env)
    [(RequestException, fun e =>
        log ERROR (ApiRequestFailed e) ;;
        create_error_record "REQUEST_ERROR" (now_error env));
     (JSONDecodeError, fun e =>
        log ERROR (JsonParseFailed e) ;;
        create_error_record "JSON_ERROR" (now_error env));
     (Exception_, fun e =>
        log ERROR (ErrorFetching e) ;;
        create_error_record "FETCH_ERROR" (now_error env))].

(* ===================================================================== *)
(** * The journal                                                         *)
(* ===================================================================== *)

(** [open(self.output_file, mode)] can fail; [fail] is the exception the
    operating system answers with, if any. *)
Definition open_file (fail : option exn) : M unit :=
  match fail with
  | Some e => raise e
  | None => mret tt
  end.

(** [init_csv_file]: the header is written only when the file is absent. *)
Definition init_csv_file (open_w : option exn) : M unit :=
  w ← get;
  if bool_decide (is_Some (files w !! output_file w)) then mret tt
  else
    open_file open_w ;;
    modify (fun w => set_files (<[output_file w := [csv_header]]> (files w)) w).

(** [save_data(data)]: opening in append mode creates an absent file; the
    row is appended at the end; any exception is logged and swallowed. *)
Definition save_data (open_a : option exn) (data : pyval) : M unit :=
  try_except
    (open_file open_a ;;
     modify (fun w =>
       set_files (<[output_file w :=
                    default [] (files w !! output_file w)]> (files w)) w) ;;
     date ← lift (py_getitem data "date");
     elapsed ← lift (py_getitem data "elapsed_seconds");
     change ← lift (py_getitem data "change_in_length_mm");
     strain ← lift (py_getitem data "strain_percent");
     modify (fun w =>
       set_files (<[output_file w :=
                    (default [] (files w !! output_file w)
                      ++ [[date; elapsed; change; strain]])%list]> (files w)) w))
    [(Exception_, fun e => log ERROR (ErrorSaving e))].

(** [SensorAPIMonitor(output_file, original_length_mm)] on a file system
    [fs]: the attributes are set, then the cookies are loaded and the
    journal initialised. *)
Definition new_monitor (file : string) (length_mm : float)
    (fs : gmap string (list row)) : world :=
  World file length_mm default_form_data ∅ 0%nat fs [].

Definition init (chrome0 : res (list cookie)) (open_w : option exn)
    : M unit :=
  load_chrome_cookies chrome0 ;;
  init_csv_file open_w.

(* ===================================================================== *)
(** * The poll loop                                                       *)
(* ===================================================================== *)

(** The environment of one iteration of the loop of [run_for_duration]:
    the naive clock read by the [while] test and by the progress line, the
    two [time.time()] readings, the fetch environment and the outcome of
    opening the journal. *)
Record cycle_env : Type := CycleEnv {
  loop_now : Z;
  time_start : float;
  fetch : fetch_env;
  open_append : option exn;
  time_end : float;
  progress_now : Z
}.

(** [max(0, x)] for a float [x]: the integer [0] unless [x > 0]. *)
Definition py_max0 (x : float) : pyval :=
  if flt (S754_zero false) x then PFloat x else PInt 0.

(** [v > 0] for a number [v]. *)
Definition py_gt0 (v : pyval) : res bool :=
  match v with
  | PFloat x => Ok (flt (S754_zero false) x)
  | PInt z => Ok (0 <? z)
  | PBool b => Ok b
  | _ => Raise TypeError
  end.

(** [max(0, interval_seconds - fetch_duration)]: the integer interval is
    converted to float for the subtraction. *)
Definition sleep_time (interval_seconds : Z) (fetch_duration : float)
    : res pyval :=
  res_bind (float_of_int interval_seconds)
           (fun i => Ok (py_max0 (fsub i fetch_duration))).

(** The body of the [while] loop. *)
Definition cycle (end_time interval_seconds : Z) (env : cycle_env) : M unit :=
  let fetch_start := time_start env in
  data ← fetch_sensor_data (fetch env);
  (if py_truthy data then save_data (open_append env) data else mret tt) ;;
  modify (fun w => set_fetch_count (S (fetch_count w)) w) ;;
  let fetch_duration := fsub (time_end env) fetch_start in
  sleep ← lift (sleep_time interval_seconds fetch_duration);
  w ← get;
  (if (fetch_count w mod 120 =? 0)%nat then
     log INFO (Progress (fetch_count w) (end_time - progress_now env))
   else mret tt) ;;
  positive ← lift (py_gt0 sleep);
  if positive : bool then emit (Sleep sleep) else mret tt.

(** [while datetime.now() < end_time: ...], over the environments of the
    iterations that the observation covers. *)
Fixpoint while_loop (end_time interval_seconds : Z) (envs : list cycle_env)
    : M unit :=
  match envs with
  | [] => mret tt
  | env :: envs' =>
      if loop_now env <? end_time then
        cycle end_time interval_seconds env ;;
        while_loop end_time interval_seconds envs'
      else mret tt
  end.

(** [run_for_duration(days, interval_seconds)]; [start_time] is the first
    reading of the naive clock. *)
Definition run_for_duration (days interval_seconds : Z) (start_time : Z)
    (envs : list cycle_env) : M unit :=
  let end_time := start_time + days * us_per_day in
  modify (set_fetch_count 0) ;;
  log INFO (StartingMonitor days) ;;
  log INFO (ApiUrl api_url) ;;
  log INFO (Interval interval_seconds) ;;
  log INFO (StartTime start_time) ;;
  log INFO (EndTime end_time) ;;
  try_except (while_loop end_time interval_seconds envs)
    [(Exception_, fun e => log ERROR (UnexpectedError e))] ;;
  w ← get;
  log INFO (MonitoringCompleted (fetch_count w)) ;;
  log INFO (DataSavedTo (output_file w)).

(** [main()]: the monitor of a 50 mm specimen. *)
Definition main_monitor (fs : gmap string (list row)) : world :=
  new_monitor "sensor_data.csv" (of_ratio 50 1) fs.

(* ===================================================================== *)
(** * Observations used in the statements                                 *)
(* ===================================================================== *)

(** The range of Python's [datetime]: years 1 to 9999. *)
Definition datetime_min : instant := datetime_utc 1 1 1 0 0 0.
Definition datetime_max : instant :=
  datetime_utc 9999 12 31 23 59 59 + 999999.
Definition valid_instant (t : instant) : Prop :=
  datetime_min <= t <= datetime_max.

(** Both clock readings of a fetch are datetimes, taken in program order. *)
Definition valid_clock (env : fetch_env) : Prop :=
  valid_instant (now_success env) /\ valid_instant (now_error env).

(** Instants within [2^53] microseconds (about 285 years) of the experiment
    start, where [total_seconds] is exact to the second. *)
Definition near_start (t : instant) : Prop :=
  - 2 ^ 53 < t - experiment_start < 2 ^ 53.

(** The rows of the journal file (none when the file is absent). *)
Definition journal (w : world) : list row :=
  default [] (files w !! output_file w).

(** The session token carried by the form data. *)
Definition token (w : world) : option string := form_data w !! "s".

(** The arguments of the [time.sleep] calls in a trace. *)
Definition sleeps (t : list event) : list pyval :=
  omap (fun ev => match ev with Sleep s => Some s | _ => None end) t.

(** The session-key transitions logged in a trace. *)
Definition transitions (t : list event) : list (option string * string) :=
  omap (fun ev => match ev with
                  | Log _ (SessionKeyUpdated old new) => Some (old, new)
                  | _ => None
                  end) t.

(** The form data of the requests posted in a trace. *)
Definition posts (t : list event) : list (gmap string string) :=
  omap (fun ev => match ev with Post _ d => Some d | _ => None end) t.

(** The errors logged by [save_data] in a trace. *)
Definition save_errors (t : list event) : list exn :=
  omap (fun ev => match ev with
                  | Log _ (ErrorSaving e) => Some e
                  | _ => None
                  end) t.

(** A fetch whose request fails in the transport: [post] raises a
    [RequestException], or the status makes [raise_for_status] raise. *)
Definition transport_failure (env : fetch_env) : bool :=
  match post env with
  | Raise e => isinstance e RequestException
  | Ok r => (400 <=? status_code r) && (status_code r <? 600)
  end.

(** The cookies that [update_session_key_from_cookies] treats as carrying a
    session key. *)
Definition session_cookies_of (cs : list cookie) : list cookie :=
  filter (fun c => is_session_cookie c = true)
         (filter (fun c => is_ou_cookie c = true) cs).

(** The seven fields of a sample. *)
Definition sample_keys : list string :=
  ["date"; "elapsed_seconds"; "change_in_length_mm"; "strain_percent";
   "running"; "temperature"; "status_code"].

(** The iterations of the poll loop that run before the deadline. *)
Fixpoint cycles_run (end_time : Z) (envs : list cycle_env) : list cycle_env :=
  match envs with
  | [] => []
  | env :: envs' =>
      if loop_now env <? end_time then env :: cycles_run end_time envs'
      else []
  end.

(** The sleep that follows a cycle, as a list of [time.sleep] arguments. *)
Definition cycle_sleep (interval : float) (env : cycle_env) : list pyval :=
  let remaining := fsub interval (fsub (time_end env) (time_start env)) in
  if flt (S754_zero false) remaining then [PFloat remaining] else [].

(** A computation [c] keeps an observation [f] of the world when running it
    never changes [f], whether it returns or raises. *)
Definition keeps {X A} (f : world -> X) (c : M A) : Prop :=
  forall w, f (snd (c w)) = f w.

(** What a fetch leaves alone: the configuration, the files, the cycle
    counter, the sleeps and the save errors of the trace. *)
Definition outside_fetch (w : world)
    : string * float * nat * gmap string (list row) * list pyval * list exn :=
  (output_file w, original_length_mm w, fetch_count w, files w,
   sleeps (trace w), save_errors (trace w)).

(** The value of the last cookie of the store that carries a session key:
    the one the stored token ends with after a refresh. *)
Definition final_token (cs : list cookie) : option string :=
  last (c_value <$> session_cookies_of cs).

(** What a refresh of the credentials leaves alone besides
    [outside_fetch]: nothing is posted. *)
Definition posted (w : world) : list (gmap string string) := posts (trace w).

(** The dictionary [create_error_record] returns, given the elapsed seconds
    it computed. *)
Definition error_sample (kind : string) (now : instant) (elapsed : Z) : pyval :=
  PDict
    [("date", PStr (strftime_dm_bst now));
     ("elapsed_seconds", PInt elapsed);
     ("change_in_length_mm", PFloat (S754_zero false));
     ("strain_percent", PFloat (S754_zero false));
     ("running", PBool false);
     ("temperature", PInt 0);
     ("status_code", PStr ("ERROR_" ++ kind)%string)].

(** The error kind that the [except] clauses of [fetch_sensor_data] select
    for an exception, in their order. *)
Definition error_kind (e : exn) : string :=
  if isinstance e RequestException then "REQUEST_ERROR"
  else if isinstance e JSONDecodeError then "JSON_ERROR"
  else "FETCH_ERROR".

(** The field of a returned sample. *)
Definition field (k : string) (v : pyval) : option pyval :=
  match v with
  | PDict d => dict_lookup k d
  | _ => None
  end.


(** The response of the strain scenario:
    [{"ok": {"data": {"extension": 1.255, "temperature": 21.4,
                      "running": true}}}] with status 200. *)
Definition scenario_payload : pyval :=
  PDict [("ok", PDict [("data", PDict
    [("extension", PFloat (decimal 1255 3));
     ("temperature", PFloat (decimal 214 1));
     ("running", PBool true)])])].
Definition scenario_response : response := Response 200 (Ok scenario_payload).


(** The row [save_data] writes for a sample: its date, elapsed seconds,
    length change and strain. *)
Definition sample_row (v : pyval) : option row :=
  date ← field "date" v;
  elapsed ← field "elapsed_seconds" v;
  change ← field "change_in_length_mm" v;
  strain ← field "strain_percent" v;
  Some [date; elapsed; change; strain].

(** What the credentials and the log leave alone: the journal's path and
    the files. *)
Definition storage (w : world) : string * gmap string (list row) :=
  (output_file w, files w).

(** The cycles of a run whose append found the journal writable. *)
Definition appended (envs : list cycle_env) : list cycle_env :=
  filter (fun env => open_append env = None) envs.


(** A cycle of the scenarios: the scenario response arrives, the journal
    opens, and the cycle body takes [seconds] on the [time.time()] clock. *)
Definition scenario_cycle (seconds : Z) : cycle_env :=
  CycleEnv (datetime_utc 2025 8 12 10 0 0)
           (decimal 1754989200 0)
           (FetchEnv (Ok []) (Ok scenario_response)
                     (datetime_utc 2025 8 12 9 0 0) (datetime_utc 2025 8 12 9 0 1))
           None
           (decimal (1754989200 + seconds) 0)
           (datetime_utc 2025 8 12 10 0 1).

(** A journal left by an earlier run: the header and one row. *)
Definition earlier_journal : gmap string (list row) :=
  {["sensor_data.csv" :=
      [csv_header;
       [PStr "11/08"; PInt 30; PFloat (decimal 1255 3); PFloat (decimal 251 2)]]]}.


(** Two session cookies of the platform with different values, and a
    session cookie with an empty value. *)
Definition cookie_a : cookie := Cookie "MoodleSession" "A" ".open.ac.uk" "/".
Definition cookie_b : cookie := Cookie "s" "B" "learn5.open.ac.uk" "/".
Definition cookie_empty : cookie := Cookie "s" "" ".open.ac.uk" "/".


(** The exceptions raised by the Python operations of the [try] block
    itself (as opposed to the transport and the JSON decoder). *)
Definition is_python_error (e : exn) : bool :=
  match e with
  | TypeError | AttributeError | KeyError | ValueError
  | ZeroDivisionError | OverflowError => true
  | _ => false
  end.





(** The cookies of the store that belong to the platform's domain. *)
Definition ou_cookies_of (cs : list cookie) : list cookie :=
  filter (fun c => is_ou_cookie c = true) cs.


(** The cycle counts of the progress lines logged in a trace. *)
Definition progress_lines (t : list event) : list nat :=
  omap (fun ev => match ev with
                  | Log _ (Progress count _) => Some count
                  | _ => None
                  end) t.

(** The counts at which a progress line is due during [cycles] cycles that
    follow the [count]-th: the multiples of 120 among them. *)
Definition progress_due (count cycles : nat) : list nat :=
  filter (fun c => (c mod 120 = 0)%nat) (seq (S count) cycles).

(** What a cycle logs after the fetch: the failure to open the journal, the
    progress line when one is due, and the sleep. *)
Definition cycle_tail (end_time : Z) (i : float) (count : nat)
    (env : cycle_env) : list event :=
  match open_append env with
  | Some e => [Log ERROR (ErrorSaving e)]
  | None => []
  end ++
  (if (S count mod 120 =? 0)%nat
   then [Log INFO (Progress (S count) (end_time - progress_now env))]
   else []) ++
  map Sleep (cycle_sleep i env).

(** The deadline of a run can be computed: [start_time] is a datetime and
    so is [start_time + timedelta(days=days)] (the addition raises
    [OverflowError] otherwise, before the loop is entered). *)
Definition valid_deadline (days start_time : Z) : Prop :=
  valid_instant start_time /\ valid_instant (start_time + days * us_per_day).

(** A duration [time.sleep] accepts: a float below [9e9] seconds (the limit
    of [time.sleep] is [2^63] nanoseconds, beyond which it raises
    [OverflowError]), or an integer below that bound. *)
Definition sleep_accepted (v : pyval) : bool :=
  match v with
  | PFloat x => flt x (of_ratio 9000000000 1)
  | PInt z => z <? 9000000000
  | _ => false
  end.

(** The sleeps of the cycles [ran] are all accepted by [time.sleep]. *)
Definition sleeps_accepted (interval : float) (ran : list cycle_env) : Prop :=
  forallb sleep_accepted (flat_map (cycle_sleep interval) ran) = true.

(* ===================================================================== *)
(** * Properties of the float operations                                  *)
(* ===================================================================== *)

Lemma div_half_even_bounds (a b : Z) :
  0 <= a -> 0 < b ->
  a / b <= div_half_even a b /\ 2 * b * div_half_even a b <= 2 * a + b.
Proof.
  intros Ha Hb. unfold div_half_even.
  pose proof (Z.div_mod a b ltac:(lia)) as Hdm.
  pose proof (Z.mod_pos_bound a b Hb) as Hr.
  destruct (2 * (a mod b) ?= b) eqn:Hc; [apply Z.compare_eq_iff in Hc | | ].
  - destruct (Z.even (a / b)); split; nia.
  - split; nia.
  - apply Z.compare_gt_iff in Hc. split; nia.
Qed.

Lemma ilog2_ratio_le (a b : Z) : ilog2_ratio a b <= Z.log2 a - Z.log2 b.
Proof. unfold ilog2_ratio. destruct (_ <=? _); lia. Qed.

(** Truncating the float nearest to [a / 10^6] gives the integer quotient,
    as long as [a] is below [2^53]. *)
Lemma int_of_round_pos_micro (s : bool) (a : Z) :
  0 < a < 2 ^ 53 ->
  int_of_float (round_pos s a us_per_second) = Ok (signed s (a / us_per_second)).
Proof.
  intros Ha. unfold round_pos.
  pose proof (ilog2_ratio_le a us_per_second) as Hl.
  assert (Hla : Z.log2 a < 53) by (apply Z.log2_lt_pow2; lia).
  change (Z.log2 us_per_second) with 19 in Hl.
  set (e := Z.max emin (ilog2_ratio a us_per_second - 52)).
  assert (He : emin <= e <= -19) by (unfold e, emin; lia).
  clearbody e. unfold emin in He.
  rewrite (Z.max_l 0 e), (Z.max_r 0 (- e)), Z.mul_1_r by lia.
  set (p := 2 ^ (- e)).
  assert (Hp : 2 ^ 19 <= p) by (apply Z.pow_le_mono_r; lia).
  assert (Hp1 : p = 2 * 2 ^ (- e - 1)).
  { unfold p. rewrite <- Z.pow_succ_r by lia. f_equal. lia. }
  pose proof (div_half_even_bounds (a * p) us_per_second ltac:(lia) eq_refl) as [Hlo Hhi].
  set (m := div_half_even (a * p) us_per_second) in *. clearbody m.
  pose proof (Z.div_mod a us_per_second ltac:(discriminate)) as Hdm.
  pose proof (Z.mod_pos_bound a us_per_second eq_refl) as Hr.
  set (q := a / us_per_second) in *. set (r := a mod us_per_second) in *.
  assert (Hq : 0 <= q) by (apply Z.div_pos; [lia | reflexivity]).
  assert (Hlo' : q * p <= m).
  { etransitivity; [| exact Hlo]. apply Z.div_le_lower_bound; [reflexivity |].
    unfold us_per_second in *. nia. }
  assert (Hhi' : m < (q + 1) * p) by (unfold us_per_second in *; nia).
  assert (Hdiv : m / p = q)
    by (symmetry; apply (Z.div_unique m p q (m - q * p)); [left |]; lia).
  destruct (m =? 2 ^ 53) eqn:Hm53.
  - apply Z.eqb_eq in Hm53.
    change (2 ^ 52) with (Zpos (4503599627370496)).
    unfold emax_finite. rewrite (proj2 (Z.leb_le _ _)) by lia.
    cbn [int_of_float]. unfold fnum, fden.
    rewrite (Z.max_l 0 (e + 1)), (Z.max_r 0 (- (e + 1))), Z.mul_1_r by lia.
    do 2 f_equal. rewrite <- Hdiv, Hm53, Hp1.
    replace (- (e + 1)) with (- e - 1) by lia.
    change (2 ^ 53) with (2 * Zpos 4503599627370496).
    rewrite Z.div_mul_cancel_l; [reflexivity | | lia].
    apply Z.pow_nonzero; lia.
  - destruct m as [| pm | pm]; [| | lia].
    + cbn. assert (q = 0) by nia. subst q. replace (a / us_per_second) with 0 by lia.
      destruct s; reflexivity.
    + unfold emax_finite. rewrite (proj2 (Z.leb_le _ _)) by lia.
      cbn [int_of_float]. unfold fnum, fden.
      rewrite (Z.max_l 0 e), (Z.max_r 0 (- e)), Z.mul_1_r by lia.
      fold p. rewrite Hdiv. reflexivity.
Qed.

(** [int(td.total_seconds())] truncates the exact quotient toward zero for
    every duration below [2^53] microseconds (about 285 years). *)
Lemma int_total_seconds (td : Z) :
  - 2 ^ 53 < td < 2 ^ 53 ->
  int_of_float (total_seconds td) = Ok (Z.quot td us_per_second).
Proof.
  intros H. unfold total_seconds, of_ratio. destruct td as [| p | p].
  - reflexivity.
  - rewrite int_of_round_pos_micro by lia. cbn [signed].
    rewrite Z.quot_div_nonneg by (unfold us_per_second; lia). reflexivity.
  - rewrite int_of_round_pos_micro by lia. cbn [signed].
    change (Z.neg p) with (- Z.pos p). rewrite Z.quot_opp_l by discriminate.
    rewrite Z.quot_div_nonneg by (unfold us_per_second; lia). reflexivity.
Qed.

Lemma datetime_constants :
  datetime_min = -62135596800000000 /\ datetime_max = 253402300799999999 /\
  experiment_start = 1754910000000000.
Proof. vm_compute. auto. Qed.

Lemma round_pos_int (s : bool) (a b : Z) :
  0 < a < 2 ^ 1000 -> 0 < b -> exists z, int_of_float (round_pos s a b) = Ok z.
Proof.
  intros Ha Hb. unfold round_pos.
  pose proof (ilog2_ratio_le a b) as Hl.
  assert (Z.log2 a < 1000) by (apply Z.log2_lt_pow2; lia).
  pose proof (Z.log2_nonneg b).
  set (e := Z.max emin (ilog2_ratio a b - 52)).
  assert (He : e <= 948) by (unfold e, emin; lia). clearbody e.
  set (m := div_half_even _ _). clearbody m.
  destruct (m =? 2 ^ 53).
  - change (2 ^ 52) with (Zpos 4503599627370496). unfold emax_finite.
    rewrite (proj2 (Z.leb_le _ _)) by lia. cbn. eauto.
  - destruct m; cbn; eauto. unfold emax_finite.
    rewrite (proj2 (Z.leb_le _ _)) by lia. cbn. eauto.
Qed.

(** The elapsed seconds are defined for every datetime the clock can
    return. *)
Lemma calculated_elapsed_seconds_ok (t : instant) :
  valid_instant t -> exists z, calculated_elapsed_seconds t = Ok z.
Proof.
  unfold valid_instant. destruct datetime_constants as (-> & -> & He).
  intros Ht. unfold calculated_elapsed_seconds, total_seconds, of_ratio.
  rewrite He.
  assert (2 ^ 60 < 2 ^ 1000) by (apply Z.pow_lt_mono_r; lia).
  assert (2 ^ 60 = 1152921504606846976) by reflexivity.
  destruct (t - 1754910000000000) as [| p | p] eqn:Hd.
  - cbn. eauto.
  - apply round_pos_int; [lia | reflexivity].
  - apply round_pos_int; [lia | reflexivity].
Qed.

Lemma calculated_elapsed_seconds_near (t : instant) :
  near_start t ->
  calculated_elapsed_seconds t = Ok (Z.quot (t - experiment_start) us_per_second).
Proof. intros H. apply int_total_seconds, H. Qed.




(* ===================================================================== *)
(** * Reasoning about computations                                        *)
(* ===================================================================== *)

Lemma isinstance_Exception (e : exn) : isinstance e Exception_ = true.
Proof. destruct e; reflexivity. Qed.

Lemma bind_run {A B} (c : M A) (k : A -> M B) (w : world) :
  (c ≫= k) w = match c w with
               | (Ok a, w') => k a w'
               | (Raise e, w') => (Raise e, w')
               end.
Proof. reflexivity. Qed.

Lemma bind_ok_inv {A B} (c : M A) (k : A -> M B) (w w' : world) (b : B) :
  (c ≫= k) w = (Ok b, w') ->
  exists a w1, c w = (Ok a, w1) /\ k a w1 = (Ok b, w').
Proof.
  rewrite bind_run. destruct (c w) as [[a | e] w1]; [eauto | discriminate].
Qed.

Lemma lift_ok_inv {A} (r : res A) (w w' : world) (a : A) :
  lift r w = (Ok a, w') -> r = Ok a /\ w' = w.
Proof. unfold lift. intros [= -> ->]. auto. Qed.

Section Keeps.
Context {X : Type} (f : world -> X).

Lemma keeps_ret {A} (a : A) : keeps f (mret a).
Proof. intros w. reflexivity. Qed.

Lemma keeps_lift {A} (r : res A) : keeps f (lift r).
Proof. intros w. reflexivity. Qed.

Lemma keeps_raise {A} (e : exn) : keeps f (@raise A e).
Proof. intros w. reflexivity. Qed.

Lemma keeps_get : keeps f get.
Proof. intros w. reflexivity. Qed.

Lemma keeps_modify (g : world -> world) :
  (forall w, f (g w) = f w) -> keeps f (modify g).
Proof. intros H w. apply H. Qed.

Lemma keeps_bind {A B} (c : M A) (k : A -> M B) :
  keeps f c -> (forall a, keeps f (k a)) -> keeps f (c ≫= k).
Proof.
  intros Hc Hk w. rewrite bind_run. specialize (Hc w).
  destruct (c w) as [[a | e] w1]; cbn in *; [| exact Hc].
  rewrite Hk. exact Hc.
Qed.

Lemma keeps_try {A} (c : M A) (handlers : list (exn * (exn -> M A))) :
  keeps f c -> Forall (fun h => forall e, keeps f (snd h e)) handlers ->
  keeps f (try_except c handlers).
Proof.
  intros Hc Hh w. unfold try_except. specialize (Hc w).
  destruct (c w) as [[a | e] w1]; cbn in *; [exact Hc |].
  destruct (find _ handlers) as [h |] eqn:Hf; [| exact Hc].
  apply find_some in Hf as [Hin _].
  rewrite Forall_forall in Hh. rewrite (Hh h); [exact Hc |].
  apply list_elem_of_In, Hin.
Qed.

Lemma keeps_open (o : option exn) : keeps f (open_file o).
Proof. destruct o; [apply keeps_raise | apply keeps_ret]. Qed.
End Keeps.

Lemma sleeps_snoc (t : list event) (ev : event) :
  sleeps (t ++ [ev]) = sleeps t ++ sleeps [ev].
Proof. unfold sleeps. apply omap_app. Qed.

Lemma save_errors_snoc (t : list event) (ev : event) :
  save_errors (t ++ [ev]) = save_errors t ++ save_errors [ev].
Proof. unfold save_errors. apply omap_app. Qed.

Lemma transitions_snoc (t : list event) (ev : event) :
  transitions (t ++ [ev]) = transitions t ++ transitions [ev].
Proof. unfold transitions. apply omap_app. Qed.

Lemma posts_snoc (t : list event) (ev : event) :
  posts (t ++ [ev]) = posts t ++ posts [ev].
Proof. unfold posts. apply omap_app. Qed.

(** Decomposes a [keeps] goal along the structure of the computation. *)
Ltac keeps_step :=
  match goal with
  | |- keeps _ (mret _) => apply keeps_ret
  | |- keeps _ (lift _) => apply keeps_lift
  | |- keeps _ (raise _) => apply keeps_raise
  | |- keeps _ get => apply keeps_get
  | |- keeps _ (open_file _) => apply keeps_open
  | |- keeps _ (_ ≫= _) => apply keeps_bind; [| intros]
  | |- keeps _ (try_except _ _) => apply keeps_try; [| repeat constructor; intros; cbn [snd]]
  | |- keeps _ (if ?b then _ else _) => destruct b
  | |- keeps _ (match ?x with _ => _ end) => destruct x
  | |- keeps _ (let '(_, _) := ?x in _) => destruct x
  end.

Lemma keeps_log_outside_fetch (lv : level) (m : message) :
  (forall e, m <> ErrorSaving e) -> keeps outside_fetch (log lv m).
Proof.
  intros Hm. apply keeps_modify. intros w. unfold outside_fetch. cbn.
  rewrite sleeps_snoc, save_errors_snoc. cbn.
  destruct m; rewrite ?app_nil_r; try reflexivity. now destruct (Hm e).
Qed.

Lemma keeps_post_outside_fetch (u : string) (d : gmap string string) :
  keeps outside_fetch (emit (Post u d)).
Proof.
  apply keeps_modify. intros w. unfold outside_fetch. cbn.
  rewrite sleeps_snoc, save_errors_snoc. cbn. now rewrite !app_nil_r.
Qed.

Lemma keeps_cookie_outside_fetch (c : cookie) :
  keeps outside_fetch (session_cookies_set c).
Proof. apply keeps_modify. reflexivity. Qed.

Lemma keeps_form_outside_fetch (k v : string) :
  keeps outside_fetch (form_data_set k v).
Proof. apply keeps_modify. reflexivity. Qed.

Ltac keeps_fetch :=
  repeat first
    [ apply keeps_log_outside_fetch; discriminate
    | apply keeps_post_outside_fetch
    | apply keeps_cookie_outside_fetch
    | apply keeps_form_outside_fetch
    | keeps_step ].

Lemma update_loop_outside (cs : list cookie) (u : bool) :
  keeps outside_fetch (update_loop cs u).
Proof.
  revert u. induction cs as [| c cs IH]; intros u; cbn [update_loop].
  - apply keeps_ret.
  - keeps_fetch; apply IH.
Qed.

Lemma update_outside (chrome0 : res (list cookie)) :
  keeps outside_fetch (update_session_key_from_cookies chrome0).
Proof.
  unfold update_session_key_from_cookies.
  keeps_fetch. apply update_loop_outside.
Qed.

Lemma create_error_record_outside (kind : string) (t : instant) :
  keeps outside_fetch (create_error_record kind t).
Proof. unfold create_error_record. keeps_fetch. Qed.

Lemma raise_for_status_outside (r : response) :
  keeps outside_fetch (raise_for_status r).
Proof. unfold raise_for_status. keeps_fetch. Qed.

(** A fetch touches nothing but the credentials and the log. *)
Lemma fetch_outside (env : fetch_env) :
  keeps outside_fetch (fetch_sensor_data env).
Proof.
  unfold fetch_sensor_data, fetch_body.
  repeat first [ apply update_outside | apply create_error_record_outside
               | apply raise_for_status_outside | keeps_fetch ].
Qed.

(* ===================================================================== *)
(** * Credential refresh                                                  *)
(* ===================================================================== *)

Lemma try_except_Exception {A} (c : M A) (h : exn -> M A) (w : world) :
  try_except c [(Exception_, h)] w =
    match c w with
    | (Ok a, w') => (Ok a, w')
    | (Raise e, w') => h e w'
    end.
Proof.
  unfold try_except. destruct (c w) as [[a | e] w']; [reflexivity |].
  cbn. now rewrite isinstance_Exception.
Qed.

(** The refresh returns normally on every outcome of the cookie store. *)
Lemma update_returns (chrome0 : res (list cookie)) (w : world) :
  fst (update_session_key_from_cookies chrome0 w) = Ok tt.
Proof.
  unfold update_session_key_from_cookies. rewrite try_except_Exception.
  match goal with |- fst (match ?x with _ => _ end) = _ =>
    destruct x as [[[] | e] w'] end; reflexivity.
Qed.

(** On a failure of the cookie store the refresh only logs a warning. *)
Lemma update_on_failure (e : exn) (w : world) :
  update_session_key_from_cookies (Raise e) w =
    (Ok tt, set_trace (trace w ++ [Log WARNING (ErrorUpdatingCookies e)]) w).
Proof.
  unfold update_session_key_from_cookies. rewrite try_except_Exception.
  reflexivity.
Qed.

(** The loop of the refresh, on cookies already filtered by domain: it
    returns, the form data end with the value of the last session cookie,
    and only the token of the form data changes. *)
Lemma update_loop_spec (cs : list cookie) (u : bool) (w : world) :
  exists u' w',
    update_loop cs u w = (Ok u', w') /\
    form_data w' =
      match last (c_value <$> filter (fun c => is_session_cookie c = true) cs) with
      | Some v => <["s" := v]> (form_data w)
      | None => form_data w
      end.
Proof.
  revert u w. induction cs as [| c cs IH]; intros u w; cbn [update_loop].
  - eexists _, _. split; reflexivity.
  - rewrite bind_run. cbn [session_cookies_set modify].
    set (w1 := set_session_cookies _ w).
    rewrite filter_cons. destruct (is_session_cookie c) eqn:Hs.
    + rewrite decide_True by reflexivity. rewrite fmap_cons, last_cons.
      rewrite bind_run. cbn [get].
      change (form_data w1) with (form_data w).
      destruct (bool_decide (Some (c_value c) ≠ form_data w !! "s")) eqn:Hd.
      * do 2 (rewrite bind_run; cbn [log emit modify form_data_set]).
        match goal with |- context [update_loop cs true ?w2] =>
          destruct (IH true w2) as (u' & w' & Hrun & Hfd) end.
        eexists _, _. split; [exact Hrun |]. rewrite Hfd. cbn [form_data set_form_data set_trace].
        destruct (last _); [apply insert_insert_eq | reflexivity].
      * apply bool_decide_eq_false in Hd. apply dec_stable in Hd.
        destruct (IH u w1) as (u' & w' & Hrun & Hfd).
        eexists _, _. split; [exact Hrun |]. rewrite Hfd.
        change (form_data w1) with (form_data w).
        destruct (last _); [| symmetry; apply insert_id; congruence].
        rewrite <- (insert_id (form_data w) "s" (c_value c)) at 2 by congruence.
        now rewrite insert_insert_eq.
    + rewrite decide_False by congruence.
      destruct (IH u w1) as (u' & w' & Hrun & Hfd).
      eexists _, _. split; [exact Hrun |]. exact Hfd.
Qed.

(** After a refresh the form data hold the value of the last session
    cookie of the store, if there is one, and are unchanged otherwise. *)
Lemma update_form_data (chrome0 : res (list cookie)) (w : world) :
  form_data (snd (update_session_key_from_cookies chrome0 w)) =
    match chrome0 with
    | Ok cs => match final_token cs with
               | Some v => <["s" := v]> (form_data w)
               | None => form_data w
               end
    | Raise _ => form_data w
    end.
Proof.
  destruct chrome0 as [cs | e]; [| now rewrite update_on_failure].
  unfold update_session_key_from_cookies. rewrite try_except_Exception.
  rewrite bind_run. cbn [lift]. rewrite bind_run.
  destruct (update_loop_spec (filter (fun c => is_ou_cookie c = true) cs) false w)
    as (u' & w' & Hrun & Hfd).
  rewrite Hrun. unfold final_token, session_cookies_of. rewrite <- Hfd.
  destruct u'; reflexivity.
Qed.

(* ===================================================================== *)
(** * The outcome of a fetch                                              *)
(* ===================================================================== *)

Lemma create_error_record_run (kind : string) (t : instant) (w : world) :
  create_error_record kind t w =
    (match calculated_elapsed_seconds t with
     | Ok z => Ok (error_sample kind t z)
     | Raise e => Raise e
     end, w).
Proof.
  unfold create_error_record. rewrite bind_run. cbn [lift].
  destruct (calculated_elapsed_seconds t); reflexivity.
Qed.

Lemma try_except_bind_ok {A B} (c : M A) (k : A -> M B)
    (hs : list (exn * (exn -> M B))) (w w1 : world) (a : A) :
  c w = (Ok a, w1) -> try_except (c ≫= k) hs w = try_except (k a) hs w1.
Proof. intros H. unfold try_except. rewrite bind_run, H. reflexivity. Qed.

Lemma update_run (chrome0 : res (list cookie)) (w : world) :
  update_session_key_from_cookies chrome0 w =
    (Ok tt, snd (update_session_key_from_cookies chrome0 w)).
Proof.
  pose proof (update_returns chrome0 w) as H.
  destruct (update_session_key_from_cookies chrome0 w) as [r w'].
  cbn in *. now subst.
Qed.

(** The [except] clauses turn every exception of the [try] block into an
    error record of the kind selected by [error_kind]. *)
Lemma fetch_run (env : fetch_env) (w : world) :
  fst (fetch_sensor_data env w) =
    match fetch_body env w with
    | (Ok v, _) => Ok v
    | (Raise e, _) =>
        match calculated_elapsed_seconds (now_error env) with
        | Ok z => Ok (error_sample (error_kind e) (now_error env) z)
        | Raise e' => Raise e'
        end
    end.
Proof.
  unfold fetch_sensor_data, try_except.
  destruct (fetch_body env w) as [[v | e] w']; [reflexivity |].
  unfold error_kind. cbn [find fst snd].
  destruct (isinstance e RequestException); [| destruct (isinstance e JSONDecodeError)];
    rewrite ?isinstance_Exception; cbn [snd];
    rewrite bind_run; cbn [log emit modify]; now rewrite create_error_record_run.
Qed.

(** The [try] block after the refresh and the request have been issued. *)
Lemma fetch_body_run (env : fetch_env) (w : world) :
  exists w2,
    original_length_mm w2 = original_length_mm w /\
    fetch_body env w =
      (response ← lift (post env);
       raise_for_status response ;;
       raise_for_status response ;;
       json_data ← lift (json response);
       has_ok ← lift (py_contains "ok" json_data);
       has_data ← (if has_ok : bool then
                     ok ← lift (py_getitem json_data "ok");
                     lift (py_contains "data" ok)
                   else mret false);
       if has_data : bool then
         ok ← lift (py_getitem json_data "ok");
         sensor_data ← lift (py_getitem ok "data");
         elapsed ← lift (calculated_elapsed_seconds (now_success env));
         api_elapsed_raw ← lift (py_get sensor_data "elapsed" (PInt 0));
         extension_mm ← lift (py_get sensor_data "extension" (PInt 0));
         change_in_length ← lift (py_round extension_mm 3);
         ratio ← lift (py_truediv change_in_length (original_length_mm w));
         running ← lift (py_get sensor_data "running" (PBool false));
         temperature ← lift (py_get sensor_data "temperature" (PInt 0));
         lift (py_format_1f temperature) ;;
         log INFO (ApiSuccess temperature change_in_length
                     (PFloat (fround (fmul ratio (of_ratio 100 1)) 3)) elapsed) ;;
         mret (PDict
           [("date", PStr (strftime_dm_bst (now_success env)));
            ("elapsed_seconds", PInt elapsed);
            ("change_in_length_mm", change_in_length);
            ("strain_percent", PFloat (fround (fmul ratio (of_ratio 100 1)) 3));
            ("running", running);
            ("temperature", temperature);
            ("status_code", PInt (status_code response))])
       else
         log ERROR (UnexpectedResponseFormat json_data) ;;
         create_error_record "API_FORMAT_ERROR" (now_error env)) w2.
Proof.
  unfold fetch_body. rewrite bind_run, update_run.
  set (w1 := snd (update_session_key_from_cookies (chrome env) w)).
  assert (Hl : original_length_mm w1 = original_length_mm w).
  { pose proof (update_outside (chrome env) w) as H. unfold outside_fetch in H.
    fold w1 in H. congruence. }
  rewrite bind_run. cbn [get]. rewrite bind_run. cbn [emit modify].
  rewrite Hl. eexists. split; [| reflexivity]. exact Hl.
Qed.

Lemma raise_for_status_ok_inv (r : response) (w w' : world) (u : unit) :
  raise_for_status r w = (Ok u, w') ->
  (400 <=? status_code r) && (status_code r <? 600) = false /\ w' = w.
Proof.
  unfold raise_for_status. destruct (_ && _); [discriminate |].
  intros [= _ ->]. auto.
Qed.

(** A [try] block that returns has produced either the sample of a
    well-formed response or the error record of a malformed envelope. *)
Lemma fetch_body_ok (env : fetch_env) (w w' : world) (v : pyval) :
  fetch_body env w = (Ok v, w') ->
  (exists r json_data ok sensor_data elapsed extension change ratio running
          temperature,
      post env = Ok r /\
      (400 <=? status_code r) && (status_code r <? 600) = false /\
      json r = Ok json_data /\
      py_getitem json_data "ok" = Ok ok /\
      py_getitem ok "data" = Ok sensor_data /\
      calculated_elapsed_seconds (now_success env) = Ok elapsed /\
      py_get sensor_data "extension" (PInt 0) = Ok extension /\
      py_round extension 3 = Ok change /\
      py_truediv change (original_length_mm w) = Ok ratio /\
      py_get sensor_data "running" (PBool false) = Ok running /\
      py_get sensor_data "temperature" (PInt 0) = Ok temperature /\
      v = PDict
            [("date", PStr (strftime_dm_bst (now_success env)));
             ("elapsed_seconds", PInt elapsed);
             ("change_in_length_mm", change);
             ("strain_percent", PFloat (fround (fmul ratio (of_ratio 100 1)) 3));
             ("running", running);
             ("temperature", temperature);
             ("status_code", PInt (status_code r))]) \/
  (exists elapsed,
      calculated_elapsed_seconds (now_error env) = Ok elapsed /\
      v = error_sample "API_FORMAT_ERROR" (now_error env) elapsed).
Proof.
  destruct (fetch_body_run env w) as (w2 & _ & ->). intros H.
  apply bind_ok_inv in H as (r & w3 & Hr & H). apply lift_ok_inv in Hr as [Hr ->].
  apply bind_ok_inv in H as (? & w3 & Hs & H).
  apply raise_for_status_ok_inv in Hs as [Hs ->].
  apply bind_ok_inv in H as (? & w3 & _ & H).
  apply bind_ok_inv in H as (j & w4 & Hj & H). apply lift_ok_inv in Hj as [Hj ->].
  apply bind_ok_inv in H as (has_ok & w5 & Hok & H). apply lift_ok_inv in Hok as [Hok ->].
  apply bind_ok_inv in H as (has_data & w6 & Hdata & H).
  destruct has_data.
  - left.
    apply bind_ok_inv in H as (ok & w7 & Ha & H). apply lift_ok_inv in Ha as [Hgo ->].
    apply bind_ok_inv in H as (sd & w7 & Ha & H). apply lift_ok_inv in Ha as [Hsd ->].
    apply bind_ok_inv in H as (el & w7 & Ha & H). apply lift_ok_inv in Ha as [Hel ->].
    apply bind_ok_inv in H as (? & w7 & Ha & H). apply lift_ok_inv in Ha as [_ ->].
    apply bind_ok_inv in H as (ext & w7 & Ha & H). apply lift_ok_inv in Ha as [Hext ->].
    apply bind_ok_inv in H as (ch & w7 & Ha & H). apply lift_ok_inv in Ha as [Hch ->].
    apply bind_ok_inv in H as (ra & w7 & Ha & H). apply lift_ok_inv in Ha as [Hra ->].
    apply bind_ok_inv in H as (ru & w7 & Ha & H). apply lift_ok_inv in Ha as [Hru ->].
    apply bind_ok_inv in H as (te & w7 & Ha & H). apply lift_ok_inv in Ha as [Hte ->].
    apply bind_ok_inv in H as (? & w7 & _ & H).
    apply bind_ok_inv in H as (? & w8 & _ & H).
    injection H as <- _.
    exists r, j, ok, sd, el, ext, ch, ra, ru, te. repeat split; assumption.
  - right.
    apply bind_ok_inv in H as (? & w7 & _ & H).
    rewrite create_error_record_run in H.
    destruct (calculated_elapsed_seconds (now_error env)) as [z |]; [| discriminate].
    injection H as <- _. eauto.
Qed.


(** An exception of [response.json()] leaves the [try] block as it is. *)
Lemma fetch_body_json_raise (env : fetch_env) (w : world) (r : response)
    (e : exn) :
  post env = Ok r -> transport_failure env = false -> json r = Raise e ->
  exists w', fetch_body env w = (Raise e, w').
Proof.
  intros Hp Ht Hj. destruct (fetch_body_run env w) as (w2 & _ & ->).
  unfold transport_failure in Ht. rewrite Hp in Ht.
  rewrite bind_run, Hp. cbn [lift].
  do 2 (rewrite bind_run; unfold raise_for_status at 1; rewrite Ht; cbn [mret M_ret]).
  rewrite bind_run, Hj. cbn [lift]. eauto.
Qed.

(* ===================================================================== *)
(** * Claims about the fetched sample                                     *)
(* ===================================================================== *)

(** The float operations agree with the Standard Library's specification of
    IEEE 754 arithmetic on the operands of the scenarios, and [fround] and
    [int_of_float] with Python on its textbook cases: [round(2.675, 2)] is
    [2.67], [round(0.0625, 3)] is [0.062], [round(-0.0001, 3)] is [-0.0],
    [int(-1.5)] is [-1]. *)
Example float_model_cross_check :
  fdiv (decimal 1255 3) (decimal 50 0) = SFdiv 53 1024 (decimal 1255 3) (decimal 50 0) /\
  fmul (decimal 251 4) (decimal 100 0) = SFmul 53 1024 (decimal 251 4) (decimal 100 0) /\
  fsub (decimal 30 0) (decimal 351 1) = SFsub 53 1024 (decimal 30 0) (decimal 351 1) /\
  fadd (decimal 1 1) (decimal 2 1) = SFadd 53 1024 (decimal 1 1) (decimal 2 1) /\
  decimal 1255 3 = S754_finite false 5652017532349972 (-52) /\
  fround (decimal 2675 3) 2 = decimal 267 2 /\
  fround (decimal 625 4) 3 = decimal 62 3 /\
  fround (decimal (-1) 4) 3 = S754_zero true /\
  int_of_float (decimal (-15) 1) = Ok (-1).
Proof. vm_compute. repeat split; reflexivity. Qed.



(** C1 (what the code does). When the request succeeds and the body cannot
    be parsed, [response.json()] raises [requests.exceptions.JSONDecodeError],
    which is a [RequestException]: the first [except] clause handles it and
    the sample is tagged ERROR_REQUEST_ERROR, not ERROR_JSON_ERROR. *)
Theorem fetch_unparsable_body_tagged_request_error (env : fetch_env)
    (w : world) (r : response) :
  post env = Ok r ->
  transport_failure env = false ->
  json r = Raise RequestsJSONDecodeError ->
  valid_instant (now_error env) ->
  exists v,
    fst (fetch_sensor_data env w) = Ok v /\
    field "status_code" v = Some (PStr "ERROR_REQUEST_ERROR") /\
    field "status_code" v <> Some (PStr "ERROR_JSON_ERROR").
Proof.
  intros Hp Ht Hj Hv. rewrite fetch_run.
  destruct (fetch_body_json_raise env w r _ Hp Ht Hj) as (w' & ->).
  destruct (calculated_elapsed_seconds_ok _ Hv) as [z ->].
  eexists. split; [reflexivity |]. cbn. split; [reflexivity | discriminate].
Qed.

Lemma fetch_unparsable_body_tagged_request_error_witness :
  exists v,
    fst (fetch_sensor_data
           (FetchEnv (Ok []) (Ok (Response 200 (Raise RequestsJSONDecodeError)))
                     (datetime_utc 2025 8 12 9 0 0) (datetime_utc 2025 8 12 9 0 10))
           (main_monitor ∅)) = Ok v /\
    field "status_code" v = Some (PStr "ERROR_REQUEST_ERROR") /\
    field "status_code" v <> Some (PStr "ERROR_JSON_ERROR").
Proof.
  eapply fetch_unparsable_body_tagged_request_error.
  - reflexivity.
  - reflexivity.
  - reflexivity.
  - unfold valid_instant. vm_compute. split; discriminate.
Defined.

(** The [except json.JSONDecodeError] clause is reached only by a decode
    error that is not a [RequestException], such as the one of the [json]
    module itself. *)
Lemma fetch_plain_json_error (env : fetch_env) (w : world) (r : response) :
  post env = Ok r ->
  transport_failure env = false ->
  json r = Raise JSONDecodeError ->
  valid_instant (now_error env) ->
  exists v,
    fst (fetch_sensor_data env w) = Ok v /\
    field "status_code" v = Some (PStr "ERROR_JSON_ERROR").
Proof.
  intros Hp Ht Hj Hv. rewrite fetch_run.
  destruct (fetch_body_json_raise env w r _ Hp Ht Hj) as (w' & ->).
  destruct (calculated_elapsed_seconds_ok _ Hv) as [z ->].
  eexists. split; reflexivity.
Qed.

(** Every sample carries the elapsed seconds computed from one of the two
    clock readings of the fetch. *)
Lemma fetch_elapsed (env : fetch_env) (w : world) (v : pyval) :
  fst (fetch_sensor_data env w) = Ok v ->
  exists t z,
    (t = now_success env \/ t = now_error env) /\
    calculated_elapsed_seconds t = Ok z /\
    field "elapsed_seconds" v = Some (PInt z).
Proof.
  rewrite fetch_run. destruct (fetch_body env w) as [[v' | e] w'] eqn:Hb.
  - intros [= ->]. apply fetch_body_ok in Hb as [H | H].
    + destruct H as (r & j & ok & sd & el & ext & ch & ra & ru & te & H).
      destruct H as (_ & _ & _ & _ & _ & Hel & _ & _ & _ & _ & _ & ->).
      exists (now_success env), el. auto.
    + destruct H as (z & Hz & ->). exists (now_error env), z. auto.
  - destruct (calculated_elapsed_seconds (now_error env)) as [z |] eqn:Hz;
      [| discriminate].
    intros [= <-]. exists (now_error env), z. auto.
Qed.


(** The sample of the strain scenario. *)
Lemma fetch_scenario (env : fetch_env) (w : world) :
  post env = Ok scenario_response ->
  original_length_mm w = decimal 500 1 ->
  valid_instant (now_success env) ->
  exists v,
    fst (fetch_sensor_data env w) = Ok v /\
    field "change_in_length_mm" v = Some (PFloat (decimal 1255 3)) /\
    field "strain_percent" v = Some (PFloat (decimal 251 2)) /\
    field "status_code" v = Some (PInt 200).
Proof.
  intros Hp Hl Hv. rewrite fetch_run.
  destruct (fetch_body_run env w) as (w2 & _ & ->).
  destruct (calculated_elapsed_seconds_ok _ Hv) as [z Hz].
  rewrite bind_run, Hp. cbn [lift].
  do 2 (rewrite bind_run; unfold raise_for_status at 1; cbn [status_code scenario_response andb Z.leb Z.ltb Z.compare Pos.compare Pos.compare_cont mret M_ret]).
  rewrite Hz, Hl. generalize (strftime_dm_bst (now_success env)). intros date.
  vm_compute. eexists. repeat split; reflexivity.
Qed.



(** A fetch returns a dictionary with the seven fields of a sample on every
    path. *)
Lemma fetch_returns_sample (env : fetch_env) (w : world) :
  valid_clock env ->
  exists d, fst (fetch_sensor_data env w) = Ok (PDict d) /\
            dict_keys d = sample_keys.
Proof.
  intros [Hs He]. rewrite fetch_run.
  destruct (calculated_elapsed_seconds_ok _ He) as [z Hz].
  destruct (fetch_body env w) as [[v | e] w'] eqn:Hb.
  - apply fetch_body_ok in Hb as [H | H].
    + destruct H as (r & j & ok & sd & el & ext & ch & ra & ru & te & H).
      destruct H as (_ & _ & _ & _ & _ & _ & _ & _ & _ & _ & _ & ->).
      eexists. split; reflexivity.
    + destruct H as (z' & _ & ->). eexists. split; reflexivity.
  - rewrite Hz. eexists. split; reflexivity.
Qed.

(** C4 (as stated, refuted). Half a second before the experiment start the
    elapsed seconds of the sample are 0, while the floor of the difference
    is -1: [int()] truncates toward zero. *)
Lemma elapsed_seconds_not_floor :
  ~ (forall (env : fetch_env) (w : world) (v : pyval),
       fst (fetch_sensor_data env w) = Ok v ->
       exists t, (t = now_success env \/ t = now_error env) /\
                 field "elapsed_seconds" v =
                   Some (PInt ((t - experiment_start) / us_per_second))).
Proof.
  intros H.
  pose (t := datetime_utc 2025 8 11 10 59 59 + 500000).
  destruct (H (FetchEnv (Ok []) (Raise ConnectionError) t t) (main_monitor ∅)
              (error_sample "REQUEST_ERROR" t 0))
    as (t' & Ht & Hf).
  - vm_compute. reflexivity.
  - assert (t' = t) as -> by (destruct Ht as [-> | ->]; reflexivity).
    vm_compute in Hf. discriminate.
Qed.

Lemma quot_floor_nonneg (a : Z) :
  0 <= a -> Z.quot a us_per_second = a / us_per_second.
Proof. intros H. apply Z.quot_div_nonneg; [exact H | reflexivity]. Qed.

Lemma quot_monotone (a b : Z) :
  a <= b -> Z.quot a us_per_second <= Z.quot b us_per_second.
Proof. intros H. apply Z.quot_le_mono; [reflexivity | exact H]. Qed.

(** C4 (amended). For clock readings within [2^53] microseconds of the
    experiment start, the elapsed seconds of every sample, success or
    error, are the difference between a reading of the local clock and the
    experiment start, in whole seconds truncated toward zero (the floor when
    the reading is not before the start); no field of the response enters;
    and over two consecutive fetches whose clock readings do not decrease
    the elapsed seconds do not decrease. *)
Theorem elapsed_seconds_truncated (env1 env2 : fetch_env) (w : world)
    (v1 v2 : pyval) :
  near_start (now_success env1) -> near_start (now_error env1) ->
  near_start (now_success env2) -> near_start (now_error env2) ->
  fst (fetch_sensor_data env1 w) = Ok v1 ->
  fst (fetch_sensor_data env2 (snd (fetch_sensor_data env1 w))) = Ok v2 ->
  exists t1 t2 z1 z2,
    (t1 = now_success env1 \/ t1 = now_error env1) /\
    (t2 = now_success env2 \/ t2 = now_error env2) /\
    field "elapsed_seconds" v1 = Some (PInt z1) /\
    field "elapsed_seconds" v2 = Some (PInt z2) /\
    z1 = Z.quot (t1 - experiment_start) us_per_second /\
    z2 = Z.quot (t2 - experiment_start) us_per_second /\
    (experiment_start <= t1 -> z1 = (t1 - experiment_start) / us_per_second) /\
    (experiment_start <= t2 -> z2 = (t2 - experiment_start) / us_per_second) /\
    (now_success env1 <= now_error env1 ->
     now_error env1 <= now_success env2 ->
     now_success env2 <= now_error env2 -> z1 <= z2).
Proof.
  intros Hs1 He1 Hs2 He2 Hf1 Hf2.
  destruct (fetch_elapsed _ _ _ Hf1) as (t1 & z1 & Ht1 & Hz1 & Hv1).
  destruct (fetch_elapsed _ _ _ Hf2) as (t2 & z2 & Ht2 & Hz2 & Hv2).
  assert (Hn1 : near_start t1) by (destruct Ht1 as [-> | ->]; assumption).
  assert (Hn2 : near_start t2) by (destruct Ht2 as [-> | ->]; assumption).
  rewrite calculated_elapsed_seconds_near in Hz1, Hz2 by assumption.
  injection Hz1 as <-. injection Hz2 as <-.
  eexists t1, t2, _, _. repeat split; try eassumption; try reflexivity.
  - intros H. apply quot_floor_nonneg. lia.
  - intros H. apply quot_floor_nonneg. lia.
  - intros H1 H2 H3. apply quot_monotone.
    destruct Ht1 as [-> | ->], Ht2 as [-> | ->]; lia.
Qed.

Lemma elapsed_seconds_truncated_witness :
  let t1 := datetime_utc 2025 8 11 10 59 59 + 500000 in
  let t2 := datetime_utc 2025 8 11 11 0 31 in
  let env1 := FetchEnv (Ok []) (Raise ConnectionError) t1 t1 in
  let env2 := FetchEnv (Ok []) (Ok scenario_response) t2 t2 in
  exists t1' t2' z1 z2,
    (t1' = now_success env1 \/ t1' = now_error env1) /\
    (t2' = now_success env2 \/ t2' = now_error env2) /\
    field "elapsed_seconds" (error_sample "REQUEST_ERROR" t1 0) = Some (PInt z1) /\
    z1 = Z.quot (t1' - experiment_start) us_per_second /\
    z2 = Z.quot (t2' - experiment_start) us_per_second /\
    z1 <= z2.
Proof.
  intros t1 t2 env1 env2.
  assert (Hn1 : near_start t1) by (unfold near_start; vm_compute; split; reflexivity).
  assert (Hn2 : near_start t2) by (unfold near_start; vm_compute; split; reflexivity).
  destruct (fetch_scenario env2 (snd (fetch_sensor_data env1 (main_monitor ∅))))
    as (v2 & Hf2 & _).
  { reflexivity. }
  { apply (f_equal (fun p => snd (fst (fst (fst (fst p)))))
             (fetch_outside env1 (main_monitor ∅))). }
  { unfold valid_instant. vm_compute. split; discriminate. }
  destruct (elapsed_seconds_truncated env1 env2 (main_monitor ∅)
              (error_sample "REQUEST_ERROR" t1 0) v2 Hn1 Hn1 Hn2 Hn2)
    as (t1' & t2' & z1 & z2 & H1 & H2 & Hv1 & _ & Hz1 & Hz2 & _ & _ & Hle).
  - vm_compute. reflexivity.
  - exact Hf2.
  - exists t1', t2', z1, z2. repeat split; try assumption.
    apply Hle; vm_compute; discriminate.
Defined.

(* ===================================================================== *)
(** * The journal                                                         *)
(* ===================================================================== *)

Lemma sample_row_of_keys (d : dict) :
  dict_keys d = sample_keys -> exists r, sample_row (PDict d) = Some r.
Proof.
  unfold dict_keys, sample_keys. intros H.
  repeat (destruct d as [| [? ?] d]; [discriminate |]; cbn in H;
          injection H as Hk H; subst).
  destruct d; [| cbn in H; discriminate H]. cbn. eauto.
Qed.

Lemma sample_row_inv (v : pyval) (r : row) :
  sample_row v = Some r ->
  exists date elapsed change strain,
    py_getitem v "date" = Ok date /\
    py_getitem v "elapsed_seconds" = Ok elapsed /\
    py_getitem v "change_in_length_mm" = Ok change /\
    py_getitem v "strain_percent" = Ok strain /\
    r = [date; elapsed; change; strain].
Proof.
  unfold sample_row. destruct v; try discriminate. cbn [field py_getitem].
  destruct (dict_lookup "date" d) as [date |]; [| discriminate].
  destruct (dict_lookup "elapsed_seconds" d) as [el |]; [| discriminate].
  destruct (dict_lookup "change_in_length_mm" d) as [ch |]; [| discriminate].
  destruct (dict_lookup "strain_percent" d) as [st |]; [| discriminate].
  cbn. intros [= <-]. exists date, el, ch, st. repeat split; reflexivity.
Qed.

Lemma journal_insert (w : world) (rows : list row) :
  journal (set_files (<[output_file w := rows]> (files w)) w) = rows.
Proof. unfold journal. cbn. now rewrite lookup_insert_eq. Qed.

(** [save_data] either appends the sample's row to the journal or, when the
    journal cannot be opened, logs the error and leaves the files alone. *)
Lemma save_data_run (o : option exn) (data : pyval) (r : row) (w : world) :
  sample_row data = Some r ->
  save_data o data w =
    (Ok tt,
     match o with
     | None => set_files (<[output_file w := journal w ++ [r]]> (files w)) w
     | Some e => set_trace (trace w ++ [Log ERROR (ErrorSaving e)]) w
     end).
Proof.
  intros Hr. apply sample_row_inv in Hr
    as (date & el & ch & st & Hd & He & Hc & Hs & ->).
  unfold save_data. rewrite try_except_Exception. rewrite bind_run.
  destruct o as [e |]; [reflexivity |]. cbn [open_file mret M_ret].
  rewrite bind_run. cbn [modify].
  rewrite bind_run, Hd. cbn [lift]. rewrite bind_run, He. cbn [lift].
  rewrite bind_run, Hc. cbn [lift]. rewrite bind_run, Hs. cbn [lift modify].
  f_equal. unfold set_files at 1. cbn [output_file original_length_mm form_data
    session_cookies fetch_count files trace set_files].
  unfold set_files. f_equal.
  rewrite lookup_insert_eq. cbn [default]. rewrite insert_insert_eq.
  reflexivity.
Qed.

Lemma init_csv_file_existing (o : option exn) (w : world) :
  is_Some (files w !! output_file w) -> init_csv_file o w = (Ok tt, w).
Proof.
  intros H. unfold init_csv_file. rewrite bind_run. cbn [get].
  now rewrite bool_decide_eq_true_2.
Qed.

Lemma init_csv_file_absent (w : world) :
  files w !! output_file w = None ->
  init_csv_file None w =
    (Ok tt, set_files (<[output_file w := [csv_header]]> (files w)) w).
Proof.
  intros H. unfold init_csv_file. rewrite bind_run. cbn [get].
  rewrite bool_decide_eq_false_2 by (rewrite H; intros [? ?]; discriminate).
  reflexivity.
Qed.

(** Initialisation returns and leaves a journal that exists: the one that
    was there, or a new one holding the header. *)
Lemma init_csv_file_journal (w : world) :
  let w1 := snd (init_csv_file None w) in
  fst (init_csv_file None w) = Ok tt /\
  output_file w1 = output_file w /\
  is_Some (files w1 !! output_file w1) /\
  journal w1 = default [csv_header] (files w !! output_file w).
Proof.
  cbn zeta. destruct (files w !! output_file w) as [rows |] eqn:Hf.
  - rewrite init_csv_file_existing by (rewrite Hf; eauto).
    unfold journal. cbn [fst snd]. rewrite Hf. eauto.
  - rewrite init_csv_file_absent by exact Hf.
    cbn [fst snd output_file files set_files]. rewrite journal_insert.
    rewrite lookup_insert_eq. eauto.
Qed.

(** C6. Journal initialisation is idempotent: on an absent file it creates
    the journal holding exactly the four-column header row (Date,
    Elapsed Time (s), Change in Length (mm), % Strain); on an existing file
    it changes nothing, however the opening would go and however often it is
    repeated. *)
Theorem init_csv_file_idempotent (w : world) (o : option exn) (n : nat) :
  let w1 := snd (init_csv_file None w) in
  fst (init_csv_file None w) = Ok tt /\
  match files w !! output_file w with
  | Some rows => init_csv_file o w = (Ok tt, w)
  | None =>
      w1 = set_files
             (<[output_file w :=
                [[PStr "Date"; PStr "Elapsed Time (s)";
                  PStr "Change in Length (mm)"; PStr "% Strain"]]]> (files w)) w
  end /\
  journal w1 = default [csv_header] (files w !! output_file w) /\
  Nat.iter n (fun w' => snd (init_csv_file o w')) w1 = w1.
Proof.
  cbn zeta. destruct (init_csv_file_journal w) as (Hr & _ & Hex & Hj).
  split; [exact Hr |]. split; [| split; [exact Hj |]].
  - destruct (files w !! output_file w) as [rows |] eqn:Hf.
    + apply init_csv_file_existing. rewrite Hf. eauto.
    + now rewrite init_csv_file_absent.
  - induction n as [| n IH]; [reflexivity |].
    rewrite Nat.iter_succ, IH. now rewrite init_csv_file_existing.
Qed.

(* ===================================================================== *)
(** * The poll loop                                                       *)
(* ===================================================================== *)

(** One iteration of the loop: a sample is fetched and its row appended
    (or the failure to open the journal logged), the counter advances, and
    the process sleeps for the rest of the interval. *)
Lemma cycle_run (end_time interval : Z) (i : float) (env : cycle_env)
    (w : world) :
  valid_clock (fetch env) -> float_of_int interval = Ok i ->
  exists d r w',
    fst (fetch_sensor_data (fetch env) w) = Ok (PDict d) /\
    dict_keys d = sample_keys /\
    sample_row (PDict d) = Some r /\
    cycle end_time interval env w = (Ok tt, w') /\
    output_file w' = output_file w /\
    original_length_mm w' = original_length_mm w /\
    fetch_count w' = S (fetch_count w) /\
    files w' = match open_append env with
               | None => <[output_file w := journal w ++ [r]]> (files w)
               | Some _ => files w
               end /\
    sleeps (trace w') = sleeps (trace w) ++ cycle_sleep i env /\
    save_errors (trace w') =
      save_errors (trace w) ++ match open_append env with
                               | None => []
                               | Some e => [e]
                               end.
Proof.
  intros Hv Hi.
  destruct (fetch_returns_sample _ w Hv) as (d & Hd & Hk).
  destruct (sample_row_of_keys d Hk) as [r Hr].
  pose proof (fetch_outside (fetch env) w) as Ho.
  destruct (fetch_sensor_data (fetch env) w) as [res w1] eqn:Hf.
  cbn [fst snd] in Hd, Ho. subst res.
  unfold outside_fetch in Ho. injection Ho as Hfile Hlen Hcount Hfiles Hsl Hse.
  assert (Hj : journal w1 = journal w) by (unfold journal; congruence).
  destruct (cycle end_time interval env w) as [rr w'] eqn:Hc.
  exists d, r, w'. split; [reflexivity |]. split; [exact Hk |].
  split; [exact Hr |].
  unfold cycle in Hc. rewrite bind_run, Hf in Hc.
  replace (py_truthy (PDict d)) with true in Hc
    by (destruct d; [discriminate Hk | reflexivity]).
  rewrite bind_run, (save_data_run _ _ r) in Hc by exact Hr.
  rewrite bind_run in Hc. cbn [modify] in Hc. rewrite bind_run in Hc.
  unfold sleep_time in Hc. rewrite Hi in Hc. cbn [res_bind lift] in Hc.
  rewrite bind_run in Hc. cbn [get] in Hc. rewrite bind_run in Hc.
  unfold cycle_sleep, py_max0 in *.
  set (x := fsub i (fsub (time_end env) (time_start env))) in *.
  destruct (open_append env) as [e |];
    (destruct (_ =? _)%nat; [cbn [log emit modify] in Hc | cbn [mret M_ret] in Hc]);
    rewrite bind_run in Hc;
    (destruct (flt (S754_zero false) x) eqn:Hx;
       cbn [py_gt0 lift] in Hc; rewrite ?Hx in Hc;
       cbn [Z.ltb Z.compare emit modify mret M_ret] in Hc);
    injection Hc as <- <-;
    (split; [reflexivity |]);
    cbn [output_file original_length_mm fetch_count files trace set_files
         set_trace set_fetch_count];
    rewrite ?sleeps_snoc, ?save_errors_snoc; cbn [sleeps save_errors omap];
    rewrite ?app_nil_r, ?Hj;
    repeat split; first [congruence | rewrite ?Hsl, ?Hse; reflexivity].
Qed.

(** The loop over the iterations that run before the deadline: the journal
    is extended at its end by one row per iteration whose append succeeded,
    no other file changes, every iteration is counted, and the sleeps are
    those of the iterations in turn. *)
Lemma while_loop_run (end_time interval : Z) (i : float)
    (envs : list cycle_env) (w : world) :
  Forall (fun env => valid_clock (fetch env)) (cycles_run end_time envs) ->
  float_of_int interval = Ok i ->
  exists rows w',
    while_loop end_time interval envs w = (Ok tt, w') /\
    output_file w' = output_file w /\
    original_length_mm w' = original_length_mm w /\
    fetch_count w' = (fetch_count w + length (cycles_run end_time envs))%nat /\
    journal w' = journal w ++ rows /\
    length rows = length (appended (cycles_run end_time envs)) /\
    (forall f, f <> output_file w -> files w' !! f = files w !! f) /\
    sleeps (trace w') =
      sleeps (trace w) ++ flat_map (cycle_sleep i) (cycles_run end_time envs) /\
    save_errors (trace w') =
      save_errors (trace w) ++ omap open_append (cycles_run end_time envs).
Proof.
  intros Hv Hi. revert w Hv.
  induction envs as [| env envs IH]; intros w Hv; cbn [while_loop cycles_run] in *.
  - exists [], w. cbn. rewrite !app_nil_r, Nat.add_0_r. repeat split; reflexivity.
  - destruct (loop_now env <? end_time).
    + apply Forall_cons in Hv as [Hv1 Hv].
      destruct (cycle_run end_time interval i env w Hv1 Hi)
        as (d & r & w1 & _ & _ & _ & Hc & Hf1 & Hl1 & Hn1 & Hfs1 & Hs1 & He1).
      destruct (IH w1 Hv) as (rows & w' & Hrun & Hf & Hl & Hn & Hj & Hlen & Hfs & Hs & He).
      rewrite bind_run, Hc.
      exists (match open_append env with None => [r] | Some _ => [] end ++ rows), w'.
      split; [exact Hrun |]. split; [congruence |]. split; [congruence |].
      split; [cbn [length]; lia |].
      assert (Hj1 : journal w1 =
                journal w ++ match open_append env with None => [r] | Some _ => [] end).
      { unfold journal at 1. rewrite Hf1, Hfs1.
        destruct (open_append env); [now rewrite app_nil_r |].
        now rewrite lookup_insert_eq. }
      split; [rewrite Hj, Hj1; now rewrite app_assoc |].
      split.
      { unfold appended in *. rewrite filter_cons, length_app, Hlen.
        destruct (open_append env); [now rewrite decide_False by discriminate |].
        now rewrite decide_True by reflexivity. }
      split.
      { intros f Hne. rewrite Hfs by congruence. rewrite Hfs1.
        destruct (open_append env); [reflexivity |].
        now rewrite lookup_insert_ne by congruence. }
      split.
      { rewrite Hs, Hs1. cbn [flat_map]. now rewrite app_assoc. }
      rewrite He, He1. cbn [omap list_omap].
      destruct (open_append env); cbn; now rewrite <- ?app_assoc, ?app_nil_r.
    + exists [], w. cbn. rewrite !app_nil_r, Nat.add_0_r. repeat split; reflexivity.
Qed.

Lemma load_loop_storage (cs : list cookie) (n : nat) (k : option string) :
  keeps storage (load_loop cs n k).
Proof.
  revert n k. induction cs as [| c cs IH]; intros n k; cbn [load_loop].
  - apply keeps_ret.
  - repeat first [ apply IH | apply keeps_modify; reflexivity | keeps_step ].
Qed.

Lemma load_chrome_cookies_storage (chrome0 : res (list cookie)) :
  keeps storage (load_chrome_cookies chrome0).
Proof.
  unfold load_chrome_cookies.
  repeat first [ apply load_loop_storage | apply keeps_modify; reflexivity
               | keeps_step ].
Qed.



(* ===================================================================== *)
(** * Claims about the journal and the scheduler                          *)
(* ===================================================================== *)









(* ===================================================================== *)
(** * Claims about the credentials                                        *)
(* ===================================================================== *)

(** The refresh loop changes neither the token nor the log when every
    session cookie carries the stored token. *)
Lemma update_loop_quiet (cs : list cookie) (u : bool) (w : world) :
  Forall (fun c => token w = Some (c_value c))
         (filter (fun c => is_session_cookie c = true) cs) ->
  exists w', update_loop cs u w = (Ok u, w') /\
             form_data w' = form_data w /\ trace w' = trace w.
Proof.
  unfold token. revert w. induction cs as [| c cs IH]; intros w H; cbn [update_loop].
  - eauto.
  - rewrite bind_run. cbn [session_cookies_set modify].
    set (w1 := set_session_cookies _ w).
    rewrite filter_cons in H. destruct (is_session_cookie c) eqn:Hs.
    + rewrite decide_True in H by reflexivity. apply Forall_cons in H as [Hc H].
      rewrite bind_run. cbn [get]. change (form_data w1) with (form_data w).
      rewrite bool_decide_eq_false_2 by (intros Hne; apply Hne; now rewrite Hc).
      destruct (IH w1 H) as (w' & Hrun & Hfd & Ht). eauto.
    + rewrite decide_False in H by congruence.
      destruct (IH w1 H) as (w' & Hrun & Hfd & Ht). eauto.
Qed.

(** C8 (as stated, refuted). With two session cookies of different values
    in the store, a refresh on a state whose token equals the value of one
    of them (the state the previous refresh left) rewrites the token and
    logs transitions again. *)
Lemma refresh_logs_transitions_again :
  ~ (forall (cs : list cookie) (w : world) (c : cookie),
       c ∈ session_cookies_of cs ->
       token w = Some (c_value c) ->
       let w' := snd (update_session_key_from_cookies (Ok cs) w) in
       token w' = token w /\
       transitions (trace w') = transitions (trace w)).
Proof.
  intros H.
  specialize (H [cookie_a; cookie_b]
                (snd (update_session_key_from_cookies (Ok [cookie_a; cookie_b])
                        (main_monitor ∅)))
                cookie_b).
  destruct H as [_ H].
  - apply list_elem_of_In. vm_compute. auto.
  - vm_compute. reflexivity.
  - vm_compute in H. discriminate.
Qed.

(** C8 (amended). The refresh never raises: a failure of the cookie store
    is logged as a warning and changes nothing else, so the stored token is
    kept; when every session cookie of the store carries the stored token,
    the token is not rewritten and no transition is logged; and a second
    refresh on the same cookie store leaves the form data, and so the
    token, as the first refresh left them. *)
Theorem refresh_never_raises (chrome0 : res (list cookie)) (w : world) :
  let w1 := snd (update_session_key_from_cookies chrome0 w) in
  fst (update_session_key_from_cookies chrome0 w) = Ok tt /\
  (forall e, chrome0 = Raise e ->
     w1 = set_trace (trace w ++ [Log WARNING (ErrorUpdatingCookies e)]) w /\
     token w1 = token w) /\
  (forall cs, chrome0 = Ok cs ->
     Forall (fun c => token w = Some (c_value c)) (session_cookies_of cs) ->
     form_data w1 = form_data w /\
     trace w1 = trace w ++ [Log DEBUG SessionKeyUnchanged] /\
     transitions (trace w1) = transitions (trace w)) /\
  form_data (snd (update_session_key_from_cookies chrome0 w1)) = form_data w1.
Proof.
  cbn zeta. split; [apply update_returns |]. split; [| split].
  - intros e ->. rewrite update_on_failure. split; reflexivity.
  - intros cs -> H. unfold update_session_key_from_cookies.
    rewrite try_except_Exception, bind_run. cbn [lift]. rewrite bind_run.
    destruct (update_loop_quiet _ false w H) as (w' & -> & Hfd & Ht).
    cbn [negb log emit modify snd trace form_data set_trace].
    rewrite Hfd, Ht, transitions_snoc. cbn. rewrite app_nil_r. auto.
  - rewrite !update_form_data. destruct chrome0 as [cs | e]; [| reflexivity].
    destruct (final_token cs); [| reflexivity]. apply insert_insert_eq.
Qed.

Lemma refresh_never_raises_witness :
  let w := snd (update_session_key_from_cookies (Ok [cookie_b]) (main_monitor ∅)) in
  token w = Some "B" /\
  transitions (trace (snd (update_session_key_from_cookies (Ok [cookie_b]) w))) =
    transitions (trace w) /\
  token (snd (update_session_key_from_cookies (Raise PermissionError) w)) = token w.
Proof.
  intros w.
  destruct (refresh_never_raises (Ok [cookie_b]) w) as (_ & _ & Hsame & _).
  destruct (refresh_never_raises (Raise PermissionError) w) as (_ & Hfail & _).
  split; [vm_compute; reflexivity |]. split.
  - apply (Hsame [cookie_b] eq_refl). repeat constructor.
  - apply (Hfail PermissionError eq_refl).
Defined.

(** The loop of the start-up load keeps the form data and returns the value
    of the last session cookie, if any. *)
Lemma load_loop_spec (cs : list cookie) (n : nat) (k : option string)
    (w : world) :
  exists w',
    load_loop cs n k w =
      (Ok ((n + length cs)%nat,
           match last (c_value <$> filter (fun c => is_session_cookie c = true) cs) with
           | Some v => Some v
           | None => k
           end), w') /\
    form_data w' = form_data w.
Proof.
  revert n k w. induction cs as [| c cs IH]; intros n k w; cbn [load_loop].
  - rewrite Nat.add_0_r. eauto.
  - rewrite bind_run. cbn [session_cookies_set modify length].
    set (w1 := set_session_cookies _ w).
    rewrite filter_cons. destruct (is_session_cookie c).
    + rewrite decide_True by reflexivity. rewrite bind_run. cbn [log emit modify].
      match goal with |- context [load_loop cs ?n' ?k' ?w2] =>
        destruct (IH n' k' w2) as (w' & -> & Hfd) end.
      exists w'. rewrite fmap_cons, last_cons, Nat.add_succ_r.
      split; [| exact Hfd]. destruct (last _); reflexivity.
    + rewrite decide_False by congruence.
      destruct (IH (S n) k w1) as (w' & -> & Hfd).
      exists w'. rewrite Nat.add_succ_r. split; [reflexivity | exact Hfd].
Qed.

(** After the start-up load the form data hold the value of the last
    session cookie when it is not empty, and are unchanged otherwise. *)
Lemma load_form_data (chrome0 : res (list cookie)) (w : world) :
  form_data (snd (load_chrome_cookies chrome0 w)) =
    match chrome0 with
    | Ok cs => match final_token cs with
               | Some v => if String.eqb v "" then form_data w
                           else <["s" := v]> (form_data w)
               | None => form_data w
               end
    | Raise _ => form_data w
    end.
Proof.
  unfold load_chrome_cookies. rewrite try_except_Exception, bind_run. cbn [lift].
  destruct chrome0 as [cs | e]; [| reflexivity].
  rewrite bind_run.
  destruct (load_loop_spec (filter (fun c => is_ou_cookie c = true) cs) 0 None w)
    as (w' & -> & Hfd).
  unfold final_token, session_cookies_of. rewrite bind_run. cbn [log emit modify].
  destruct (last _) as [v |]; [| exact Hfd].
  destruct (String.eqb v ""); [exact Hfd |].
  rewrite bind_run. cbn [form_data_set modify log emit snd form_data set_trace set_form_data].
  now rewrite Hfd.
Qed.

Lemma log_posted (lv : level) (m : message) : keeps posted (log lv m).
Proof.
  apply keeps_modify. intros w. unfold posted. cbn.
  rewrite posts_snoc. cbn. now rewrite app_nil_r.
Qed.

Ltac keeps_posted :=
  repeat first
    [ apply log_posted
    | apply keeps_modify; reflexivity
    | keeps_step ].

Lemma update_loop_posted (cs : list cookie) (u : bool) :
  keeps posted (update_loop cs u).
Proof.
  revert u. induction cs as [| c cs IH]; intros u; cbn [update_loop].
  - apply keeps_ret.
  - unfold session_cookies_set, form_data_set. keeps_posted; apply IH.
Qed.

Lemma update_posted (chrome0 : res (list cookie)) :
  keeps posted (update_session_key_from_cookies chrome0).
Proof.
  unfold update_session_key_from_cookies. keeps_posted. apply update_loop_posted.
Qed.

(** Every fetch posts exactly one request, carrying the form data as the
    refresh left them. *)
Lemma fetch_posts (env : fetch_env) (w : world) :
  posted (snd (fetch_sensor_data env w)) =
    posted w ++ [form_data (snd (update_session_key_from_cookies (chrome env) w))].
Proof.
  unfold fetch_sensor_data, fetch_body.
  rewrite (try_except_bind_ok _ _ _ _ _ _ (update_run (chrome env) w)).
  set (w1 := snd (update_session_key_from_cookies (chrome env) w)).
  rewrite (try_except_bind_ok get _ _ w1 w1 w1 eq_refl).
  rewrite (try_except_bind_ok (emit (Post api_url (form_data w1))) _ _ w1
             (set_trace (trace w1 ++ [Post api_url (form_data w1)]) w1) tt eq_refl).
  match goal with |- posted (snd (try_except ?c ?hs ?w2)) = _ =>
    assert (Hk : keeps posted (try_except c hs)) end.
  { unfold create_error_record, raise_for_status. keeps_posted. }
  rewrite Hk. unfold posted. cbn [trace set_trace]. rewrite posts_snoc.
  cbn. f_equal. apply (update_posted (chrome env) w).
Qed.

(** C10 (as stated, refuted). A session cookie with an empty value makes
    the per-cycle refresh store the empty string as the token. *)
Lemma token_can_become_empty :
  ~ (forall (chrome0 : res (list cookie)) (w : world),
       (exists v, token w = Some v /\ v <> "") ->
       exists v,
         token (snd (update_session_key_from_cookies chrome0 w)) = Some v /\
         v <> "").
Proof.
  intros H.
  destruct (H (Ok [cookie_empty]) (main_monitor ∅)) as (v & Hv & Hne).
  - exists "yWYFUnYGAQ". split; [reflexivity | discriminate].
  - vm_compute in Hv. injection Hv as <-. now apply Hne.
Qed.

(** C10 (amended). The field 's' of the form data is always defined: it is
    initialised to the default token; the start-up load replaces it only by
    a non-empty session-cookie value; a refresh replaces it by a
    session-cookie value, which can be the empty string, or leaves it
    unchanged; nothing removes it; every request carries the form data as
    the refresh left them, that is, the default token as long as no session
    cookie has been found. *)
Theorem token_always_defined (chrome0 : res (list cookie)) (env : fetch_env)
    (w : world) :
  (forall file length_mm fs,
     token (new_monitor file length_mm fs) = Some "yWYFUnYGAQ") /\
  (token (snd (load_chrome_cookies chrome0 w)) = token w \/
   exists cs v, chrome0 = Ok cs /\ final_token cs = Some v /\ v <> "" /\
                token (snd (load_chrome_cookies chrome0 w)) = Some v) /\
  (token (snd (update_session_key_from_cookies chrome0 w)) = token w \/
   exists cs v, chrome0 = Ok cs /\ final_token cs = Some v /\
                token (snd (update_session_key_from_cookies chrome0 w)) = Some v) /\
  (is_Some (token w) ->
   is_Some (token (snd (load_chrome_cookies chrome0 w))) /\
   is_Some (token (snd (update_session_key_from_cookies chrome0 w)))) /\
  posted (snd (fetch_sensor_data env w)) =
    posted w ++ [form_data (snd (update_session_key_from_cookies (chrome env) w))] /\
  (match chrome env with
   | Ok cs => final_token cs = None
   | Raise _ => True
   end ->
   form_data (snd (update_session_key_from_cookies (chrome env) w)) = form_data w).
Proof.
  assert (Hload :
    token (snd (load_chrome_cookies chrome0 w)) = token w \/
    exists cs v, chrome0 = Ok cs /\ final_token cs = Some v /\ v <> "" /\
                 token (snd (load_chrome_cookies chrome0 w)) = Some v).
  { unfold token. rewrite load_form_data.
    destruct chrome0 as [cs | e]; [| now left].
    destruct (final_token cs) as [v |] eqn:Hv; [| now left].
    destruct (String.eqb v "") eqn:He; [now left |].
    right. exists cs, v. apply String.eqb_neq in He.
    split; [reflexivity |]. split; [exact Hv |]. split; [exact He |].
    apply lookup_insert_eq. }
  assert (Hupd :
    token (snd (update_session_key_from_cookies chrome0 w)) = token w \/
    exists cs v, chrome0 = Ok cs /\ final_token cs = Some v /\
                 token (snd (update_session_key_from_cookies chrome0 w)) = Some v).
  { unfold token. rewrite update_form_data.
    destruct chrome0 as [cs | e]; [| now left].
    destruct (final_token cs) as [v |] eqn:Hv; [| now left].
    right. exists cs, v. split; [reflexivity |]. split; [exact Hv |].
    apply lookup_insert_eq. }
  split; [reflexivity |]. split; [exact Hload |]. split; [exact Hupd |].
  split; [| split].
  - intros Hs. split.
    + destruct Hload as [-> | (cs & v & _ & _ & _ & ->)]; eauto.
    + destruct Hupd as [-> | (cs & v & _ & _ & ->)]; eauto.
  - apply fetch_posts.
  - rewrite update_form_data. destruct (chrome env) as [cs | e]; [| reflexivity].
    now intros ->.
Qed.

Lemma token_always_defined_witness :
  let env := FetchEnv (Ok []) (Ok scenario_response)
                      (datetime_utc 2025 8 12 9 0 0) (datetime_utc 2025 8 12 9 0 1) in
  is_Some (token (snd (update_session_key_from_cookies (Ok [cookie_empty])
                         (main_monitor ∅)))) /\
  posted (snd (fetch_sensor_data env (main_monitor ∅))) = [default_form_data].
Proof.
  intros env.
  destruct (token_always_defined (Ok [cookie_empty]) env (main_monitor ∅))
    as (Hdef & _ & _ & Hsome & Hpost & Hkeep).
  split.
  - apply Hsome. rewrite (Hdef "sensor_data.csv" (of_ratio 50 1) ∅). eauto.
  - rewrite Hpost, Hkeep; reflexivity.
Defined.

(* ===================================================================== *)
(** * Further properties of the fetch                                     *)
(* ===================================================================== *)

Lemma bind_raise_inv {A B} (c : M A) (k : A -> M B) (w w' : world) (e : exn) :
  (c ≫= k) w = (Raise e, w') ->
  c w = (Raise e, w') \/ exists a w1, c w = (Ok a, w1) /\ k a w1 = (Raise e, w').
Proof.
  rewrite bind_run. destruct (c w) as [[a | e'] w1]; [eauto |].
  intros [= -> ->]. now left.
Qed.

Lemma lift_raise_inv {A} (r : res A) (w w' : world) (e : exn) :
  lift r w = (Raise e, w') -> r = Raise e.
Proof. unfold lift. now intros [= -> _]. Qed.

Lemma python_error_kind (e : exn) :
  is_python_error e = true -> error_kind e = "FETCH_ERROR".
Proof. destruct e; try discriminate; reflexivity. Qed.

Lemma py_contains_raise (k : string) (v : pyval) (e : exn) :
  py_contains k v = Raise e -> is_python_error e = true.
Proof. destruct v; cbn; intros [= <-]; reflexivity. Qed.

Lemma py_getitem_raise (v : pyval) (k : string) (e : exn) :
  py_getitem v k = Raise e -> is_python_error e = true.
Proof.
  destruct v; cbn; try (intros [= <-]; reflexivity).
  destruct (dict_lookup k d); intros [= <-]; reflexivity.
Qed.

Lemma py_get_raise (v : pyval) (k : string) (d : pyval) (e : exn) :
  py_get v k d = Raise e -> is_python_error e = true.
Proof. destruct v; cbn; intros [= <-]; reflexivity. Qed.

Lemma py_round_raise (v : pyval) (n : nat) (e : exn) :
  py_round v n = Raise e -> is_python_error e = true.
Proof. destruct v; cbn; intros [= <-]; reflexivity. Qed.

Lemma float_of_int_raise (z : Z) (e : exn) :
  float_of_int z = Raise e -> is_python_error e = true.
Proof.
  unfold float_of_int. destruct (of_ratio z 1); intros [= <-]; reflexivity.
Qed.

Lemma py_truediv_raise (v : pyval) (d : float) (e : exn) :
  py_truediv v d = Raise e -> is_python_error e = true.
Proof.
  unfold py_truediv.
  destruct v; cbn [res_bind]; try (intros [= <-]; reflexivity);
    try (destruct (fis_zero d); intros [= <-]; reflexivity).
  destruct (float_of_int z) eqn:Hz; cbn [res_bind].
  - destruct (fis_zero d); intros [= <-]; reflexivity.
  - intros [= <-]. eapply float_of_int_raise, Hz.
Qed.

Lemma py_format_1f_raise (v : pyval) (e : exn) :
  py_format_1f v = Raise e -> is_python_error e = true.
Proof.
  destruct v; cbn; try (intros [= <-]; reflexivity).
  destruct (float_of_int z) eqn:Hz; cbn [res_bind]; intros [= <-].
  eapply float_of_int_raise, Hz.
Qed.

(** An exception of the [try] block after the body has been parsed is one
    of the Python operations'. *)
Lemma fetch_body_raise_parsed (env : fetch_env) (w w' : world) (r : response)
    (j : pyval) (e : exn) :
  post env = Ok r -> transport_failure env = false -> json r = Ok j ->
  valid_clock env ->
  fetch_body env w = (Raise e, w') -> is_python_error e = true.
Proof.
  intros Hp Ht Hj [Hvs Hve]. destruct (fetch_body_run env w) as (w2 & _ & ->).
  unfold transport_failure in Ht. rewrite Hp in Ht.
  destruct (calculated_elapsed_seconds_ok _ Hvs) as [zs Hzs].
  destruct (calculated_elapsed_seconds_ok _ Hve) as [ze Hze].
  rewrite bind_run, Hp. cbn [lift].
  do 2 (rewrite bind_run; unfold raise_for_status at 1; rewrite Ht; cbn [mret M_ret]).
  rewrite bind_run, Hj. cbn [lift]. intros H.
  apply bind_raise_inv in H as [H | (has_ok & w3 & Ha & H)];
    [apply lift_raise_inv in H; eapply py_contains_raise, H |].
  apply bind_raise_inv in H as [H | (has_data & w4 & Hd & H)].
  { destruct has_ok; [| discriminate H].
    apply bind_raise_inv in H as [H | (ok & w5 & _ & H)];
      apply lift_raise_inv in H;
      [eapply py_getitem_raise, H | eapply py_contains_raise, H]. }
  destruct has_data.
  - repeat match type of H with
    | (lift ?r ≫= _) _ = (Raise _, _) =>
        let H' := fresh "H" in
        apply bind_raise_inv in H as [H' | (? & ? & _ & H)];
        [apply lift_raise_inv in H';
         first [ eapply py_getitem_raise, H' | eapply py_get_raise, H'
               | eapply py_round_raise, H' | eapply py_truediv_raise, H'
               | eapply py_format_1f_raise, H'
               | rewrite Hzs in H'; discriminate H' ] |]
    end.
    apply bind_raise_inv in H as [H | (? & ? & _ & H)]; discriminate H.
  - apply bind_raise_inv in H as [H | (? & ? & _ & H)]; [discriminate H |].
    rewrite create_error_record_run, Hze in H. discriminate H.
Qed.



Lemma py_getitem_contains (v : pyval) (k : string) (x : pyval) :
  py_getitem v k = Ok x -> py_contains k v = Ok true.
Proof.
  destruct v; try discriminate. cbn.
  destruct (dict_lookup k d) eqn:Hd; [| discriminate].
  intros _. now rewrite bool_decide_eq_true_2 by eauto.
Qed.

(** Everything a returning [try] block has established. *)
Lemma fetch_body_ok_full (env : fetch_env) (w w' : world) (v : pyval) :
  fetch_body env w = (Ok v, w') ->
  exists r j,
    post env = Ok r /\ json r = Ok j /\
    ((exists ok sensor_data change ratio temperature,
        py_getitem j "ok" = Ok ok /\
        py_getitem ok "data" = Ok sensor_data /\
        (exists extension,
           py_get sensor_data "extension" (PInt 0) = Ok extension /\
           py_round extension 3 = Ok change) /\
        py_truediv change (original_length_mm w) = Ok ratio /\
        py_get sensor_data "temperature" (PInt 0) = Ok temperature /\
        py_format_1f temperature = Ok tt /\
        field "status_code" v = Some (PInt (status_code r)) /\
        field "change_in_length_mm" v = Some change /\
        field "temperature" v = Some temperature) \/
     ((py_contains "ok" j = Ok false \/
       exists ok, py_getitem j "ok" = Ok ok /\ py_contains "data" ok = Ok false) /\
      exists z, v = error_sample "API_FORMAT_ERROR" (now_error env) z)).
Proof.
  destruct (fetch_body_run env w) as (w2 & _ & ->). intros H.
  apply bind_ok_inv in H as (r & w3 & Hr & H). apply lift_ok_inv in Hr as [Hr ->].
  apply bind_ok_inv in H as (? & w3 & Hs & H).
  apply raise_for_status_ok_inv in Hs as [Hs ->].
  apply bind_ok_inv in H as (? & w3 & _ & H).
  apply bind_ok_inv in H as (j & w4 & Hj & H). apply lift_ok_inv in Hj as [Hj ->].
  apply bind_ok_inv in H as (has_ok & w5 & Hok & H). apply lift_ok_inv in Hok as [Hok ->].
  apply bind_ok_inv in H as (has_data & w6 & Hdata & H).
  exists r, j. split; [exact Hr |]. split; [exact Hj |].
  destruct has_data.
  - left.
    apply bind_ok_inv in H as (ok & w7 & Ha & H). apply lift_ok_inv in Ha as [Hgo ->].
    apply bind_ok_inv in H as (sd & w7 & Ha & H). apply lift_ok_inv in Ha as [Hsd ->].
    apply bind_ok_inv in H as (el & w7 & Ha & H). apply lift_ok_inv in Ha as [Hel ->].
    apply bind_ok_inv in H as (? & w7 & Ha & H). apply lift_ok_inv in Ha as [_ ->].
    apply bind_ok_inv in H as (ext & w7 & Ha & H). apply lift_ok_inv in Ha as [Hext ->].
    apply bind_ok_inv in H as (ch & w7 & Ha & H). apply lift_ok_inv in Ha as [Hch ->].
    apply bind_ok_inv in H as (ra & w7 & Ha & H). apply lift_ok_inv in Ha as [Hra ->].
    apply bind_ok_inv in H as (ru & w7 & Ha & H). apply lift_ok_inv in Ha as [Hru ->].
    apply bind_ok_inv in H as (te & w7 & Ha & H). apply lift_ok_inv in Ha as [Hte ->].
    apply bind_ok_inv in H as ([] & w7 & Ha & H). apply lift_ok_inv in Ha as [Hfmt ->].
    apply bind_ok_inv in H as (? & w8 & _ & H).
    injection H as <- _.
    exists ok, sd, ch, ra, te. repeat split; try assumption; eauto.
  - right. split.
    + destruct has_ok.
      * right. apply bind_ok_inv in Hdata as (ok & w7 & Ha & Hd).
        apply lift_ok_inv in Ha as [Ha ->]. apply lift_ok_inv in Hd as [Hd _].
        eauto.
      * now left.
    + apply bind_ok_inv in H as (? & w7 & _ & H).
      rewrite create_error_record_run in H.
      destruct (calculated_elapsed_seconds (now_error env)) as [z |]; [| discriminate].
      injection H as <- _. eauto.
Qed.

(** After a parsed body, a fetch that does not return the success sample
    or the API_FORMAT_ERROR record returns the FETCH_ERROR record. *)
Lemma fetch_parsed_raise (env : fetch_env) (w : world) (r : response)
    (j : pyval) :
  post env = Ok r -> transport_failure env = false -> json r = Ok j ->
  valid_clock env ->
  (forall v w', fetch_body env w <> (Ok v, w')) ->
  exists z, fst (fetch_sensor_data env w) =
              Ok (error_sample "FETCH_ERROR" (now_error env) z).
Proof.
  intros Hp Ht Hj Hv Hno. rewrite fetch_run.
  destruct (fetch_body env w) as [[v | e] w'] eqn:Hb; [now destruct (Hno v w') |].
  pose proof (fetch_body_raise_parsed env w w' r j e Hp Ht Hj Hv Hb) as He.
  destruct Hv as [_ Hve]. destruct (calculated_elapsed_seconds_ok _ Hve) as [z ->].
  rewrite (python_error_kind e He). eauto.
Qed.

Lemma fetch_no_envelope (env : fetch_env) (w : world) (r : response)
    (j : pyval) :
  post env = Ok r -> transport_failure env = false -> json r = Ok j ->
  (py_contains "ok" j = Ok false \/
   exists ok, py_getitem j "ok" = Ok ok /\ py_contains "data" ok = Ok false) ->
  valid_instant (now_error env) ->
  exists z, fst (fetch_sensor_data env w) =
              Ok (error_sample "API_FORMAT_ERROR" (now_error env) z).
Proof.
  intros Hp Ht Hj Henv Hv. rewrite fetch_run.
  destruct (fetch_body_run env w) as (w2 & _ & ->).
  unfold transport_failure in Ht. rewrite Hp in Ht.
  destruct (calculated_elapsed_seconds_ok _ Hv) as [z Hz].
  rewrite bind_run, Hp. cbn [lift].
  do 2 (rewrite bind_run; unfold raise_for_status at 1; rewrite Ht; cbn [mret M_ret]).
  rewrite bind_run, Hj. cbn [lift].
  destruct Henv as [Hok | (ok & Hgo & Hd)].
  - rewrite bind_run, Hok. cbn [lift]. rewrite bind_run. cbn [mret M_ret].
    rewrite bind_run. cbn [log emit modify]. rewrite create_error_record_run, Hz.
    eauto.
  - rewrite bind_run, (py_getitem_contains _ _ _ Hgo). cbn [lift].
    rewrite bind_run, (bind_run (lift (py_getitem j "ok"))), Hgo. cbn [lift].
    rewrite Hd. rewrite bind_run. cbn [log emit modify].
    rewrite create_error_record_run, Hz. eauto.
Qed.

(** X2. A parsed body without the envelope (no "ok", or an "ok" without
    "data") gives the API_FORMAT_ERROR record. *)
Theorem fetch_missing_envelope (env : fetch_env) (w : world) (r : response)
    (j : pyval) :
  post env = Ok r -> transport_failure env = false -> json r = Ok j ->
  (py_contains "ok" j = Ok false \/
   exists ok, py_getitem j "ok" = Ok ok /\ py_contains "data" ok = Ok false) ->
  valid_instant (now_error env) ->
  exists z, fst (fetch_sensor_data env w) =
              Ok (error_sample "API_FORMAT_ERROR" (now_error env) z).
Proof. apply fetch_no_envelope. Qed.

Lemma fetch_missing_envelope_witness :
  exists z,
    fst (fetch_sensor_data
           (FetchEnv (Ok []) (Ok (Response 200 (Ok (PDict [("error", PStr "login")]))))
                     (datetime_utc 2025 8 12 9 0 0) (datetime_utc 2025 8 12 9 0 1))
           (main_monitor ∅)) =
      Ok (error_sample "API_FORMAT_ERROR" (datetime_utc 2025 8 12 9 0 1) z).
Proof.
  eapply fetch_missing_envelope.
  - reflexivity.
  - reflexivity.
  - reflexivity.
  - left. reflexivity.
  - unfold valid_instant. vm_compute. split; discriminate.
Defined.

(** X3. A parsed body that is not a JSON object never gives a sample: a
    list or string that does not contain "ok" gives the API_FORMAT_ERROR
    record, and everything else (null, a boolean, a number, or a list or
    string containing "ok", which cannot be indexed by it) gives the
    FETCH_ERROR record. *)
Theorem fetch_non_object_json (env : fetch_env) (w : world) (r : response)
    (j : pyval) :
  post env = Ok r -> transport_failure env = false -> json r = Ok j ->
  (forall d, j <> PDict d) ->
  valid_clock env ->
  exists z,
    fst (fetch_sensor_data env w) =
      Ok (error_sample
            match py_contains "ok" j with
            | Ok false => "API_FORMAT_ERROR"
            | _ => "FETCH_ERROR"
            end (now_error env) z).
Proof.
  intros Hp Ht Hj Hnd Hv.
  assert (Hget : forall k x, py_getitem j k = Ok x -> False).
  { intros k x H. destruct j; try discriminate H. now destruct (Hnd d). }
  destruct (py_contains "ok" j) as [[|] |] eqn:Hc.
  - apply (fetch_parsed_raise env w r j Hp Ht Hj Hv). intros v w' Hb.
    apply fetch_body_ok_full in Hb as (r' & j' & Hp' & Hj' & H).
    rewrite Hp in Hp'. injection Hp' as <-. rewrite Hj in Hj'. injection Hj' as <-.
    destruct H as [(ok & sd & ch & ra & te & Hgo & _) | [[H | (ok & Hgo & _)] _]].
    + exact (Hget _ _ Hgo).
    + rewrite Hc in H. discriminate H.
    + exact (Hget _ _ Hgo).
  - destruct Hv as [_ Hve]. apply (fetch_no_envelope env w r j Hp Ht Hj); auto.
  - apply (fetch_parsed_raise env w r j Hp Ht Hj Hv). intros v w' Hb.
    apply fetch_body_ok_full in Hb as (r' & j' & Hp' & Hj' & H).
    rewrite Hp in Hp'. injection Hp' as <-. rewrite Hj in Hj'. injection Hj' as <-.
    destruct H as [(ok & sd & ch & ra & te & Hgo & _) | [[H | (ok & Hgo & _)] _]].
    + exact (Hget _ _ Hgo).
    + rewrite Hc in H. discriminate H.
    + exact (Hget _ _ Hgo).
Qed.

Lemma fetch_non_object_json_witness :
  let env := FetchEnv (Ok []) (Ok (Response 200 (Ok (PList [PStr "ok"]))))
                      (datetime_utc 2025 8 12 9 0 0) (datetime_utc 2025 8 12 9 0 1) in
  exists z, fst (fetch_sensor_data env (main_monitor ∅)) =
              Ok (error_sample "FETCH_ERROR" (now_error env) z).
Proof.
  intros env.
  apply (fetch_non_object_json env (main_monitor ∅)
           (Response 200 (Ok (PList [PStr "ok"]))) (PList [PStr "ok"])).
  - reflexivity.
  - reflexivity.
  - reflexivity.
  - discriminate.
  - split; vm_compute; split; discriminate.
Defined.

(** X4. A response with the full envelope whose temperature cannot be
    formatted as a number (null, a string, a list, an object, an integer
    beyond the float range) gives the FETCH_ERROR record, whatever the
    measurement: the success log line formats the temperature with [.1f]
    before the sample is returned. *)
Theorem fetch_unformattable_temperature (env : fetch_env) (w : world)
    (r : response) (j ok : pyval) (d : dict) (t : pyval) (e : exn) :
  post env = Ok r -> transport_failure env = false -> json r = Ok j ->
  py_getitem j "ok" = Ok ok -> py_getitem ok "data" = Ok (PDict d) ->
  dict_lookup "temperature" d = Some t ->
  py_format_1f t = Raise e ->
  valid_clock env ->
  exists z, fst (fetch_sensor_data env w) =
              Ok (error_sample "FETCH_ERROR" (now_error env) z).
Proof.
  intros Hp Ht Hj Hgo Hgd Hte Hfmt Hv.
  apply (fetch_parsed_raise env w r j Hp Ht Hj Hv). intros v w' Hb.
  apply fetch_body_ok_full in Hb as (r' & j' & Hp' & Hj' & H).
  rewrite Hp in Hp'. injection Hp' as <-. rewrite Hj in Hj'. injection Hj' as <-.
  destruct H as [H | [[H | (ok' & Hgo' & H)] _]].
  - destruct H as (ok' & sd & ch & ra & te & Hgo' & Hgd' & _ & _ & Hte' & Hfmt' & _).
    rewrite Hgo in Hgo'. injection Hgo' as <-.
    rewrite Hgd in Hgd'. injection Hgd' as <-.
    cbn in Hte'. rewrite Hte in Hte'. injection Hte' as <-.
    rewrite Hfmt in Hfmt'. discriminate Hfmt'.
  - rewrite (py_getitem_contains _ _ _ Hgo) in H. discriminate H.
  - rewrite Hgo in Hgo'. injection Hgo' as <-.
    rewrite (py_getitem_contains _ _ _ Hgd) in H. discriminate H.
Qed.

Lemma fetch_unformattable_temperature_witness :
  let body := PDict [("ok", PDict [("data", PDict
                [("extension", PFloat (decimal 1255 3)); ("temperature", PNone)])])] in
  let env := FetchEnv (Ok []) (Ok (Response 200 (Ok body)))
                      (datetime_utc 2025 8 12 9 0 0) (datetime_utc 2025 8 12 9 0 1) in
  exists z, fst (fetch_sensor_data env (main_monitor ∅)) =
              Ok (error_sample "FETCH_ERROR" (now_error env) z).
Proof.
  intros body env.
  eapply (fetch_unformattable_temperature env (main_monitor ∅)
            (Response 200 (Ok body)) body).
  - reflexivity.
  - reflexivity.
  - reflexivity.
  - reflexivity.
  - reflexivity.
  - reflexivity.
  - reflexivity.
  - split; vm_compute; split; discriminate.
Defined.

Lemma py_truediv_zero_divisor (v : pyval) (d x : float) :
  fis_zero d = true -> py_truediv v d <> Ok x.
Proof.
  intros Hd. unfold py_truediv.
  match goal with |- res_bind ?c _ <> _ => destruct c end; cbn [res_bind];
    [rewrite Hd |]; discriminate.
Qed.

(** X5. A monitor configured with a zero specimen length never returns a
    measurement: a response with the full envelope gives the FETCH_ERROR
    record (the division raises). *)
Theorem fetch_zero_length (env : fetch_env) (w : world) (r : response)
    (j ok sensor_data : pyval) :
  post env = Ok r -> transport_failure env = false -> json r = Ok j ->
  py_getitem j "ok" = Ok ok -> py_getitem ok "data" = Ok sensor_data ->
  fis_zero (original_length_mm w) = true ->
  valid_clock env ->
  exists z, fst (fetch_sensor_data env w) =
              Ok (error_sample "FETCH_ERROR" (now_error env) z).
Proof.
  intros Hp Ht Hj Hgo Hgd Hzero Hv.
  apply (fetch_parsed_raise env w r j Hp Ht Hj Hv). intros v w' Hb.
  apply fetch_body_ok_full in Hb as (r' & j' & Hp' & Hj' & H).
  rewrite Hp in Hp'. injection Hp' as <-. rewrite Hj in Hj'. injection Hj' as <-.
  destruct H as [H | [[H | (ok' & Hgo' & H)] _]].
  - destruct H as (ok' & sd & ch & ra & te & _ & _ & _ & Hdiv & _).
    exact (py_truediv_zero_divisor _ _ _ Hzero Hdiv).
  - rewrite (py_getitem_contains _ _ _ Hgo) in H. discriminate H.
  - rewrite Hgo in Hgo'. injection Hgo' as <-.
    rewrite (py_getitem_contains _ _ _ Hgd) in H. discriminate H.
Qed.

Lemma fetch_zero_length_witness :
  let env := fetch (scenario_cycle 12) in
  exists z,
    fst (fetch_sensor_data env (new_monitor "sensor_data.csv" (S754_zero false) ∅)) =
      Ok (error_sample "FETCH_ERROR" (now_error env) z).
Proof.
  intros env.
  eapply (fetch_zero_length env _ scenario_response scenario_payload).
  - reflexivity.
  - reflexivity.
  - reflexivity.
  - reflexivity.
  - reflexivity.
  - reflexivity.
  - split; vm_compute; split; discriminate.
Defined.

(** X6. Measurement fields missing from the remote data take their
    defaults: without "extension", "running" and "temperature" the sample
    of a monitor with a positive length has the integer 0 as length change,
    0.0 as strain, [running] false, temperature 0 and the HTTP status. *)
Theorem fetch_missing_fields_default (env : fetch_env) (w : world)
    (r : response) (j ok : pyval) (d : dict) (m : positive) (e : Z) :
  post env = Ok r -> transport_failure env = false -> json r = Ok j ->
  py_getitem j "ok" = Ok ok -> py_getitem ok "data" = Ok (PDict d) ->
  dict_lookup "extension" d = None ->
  dict_lookup "running" d = None ->
  dict_lookup "temperature" d = None ->
  original_length_mm w = S754_finite false m e ->
  valid_instant (now_success env) ->
  exists v,
    fst (fetch_sensor_data env w) = Ok v /\
    field "change_in_length_mm" v = Some (PInt 0) /\
    field "strain_percent" v = Some (PFloat (S754_zero false)) /\
    field "running" v = Some (PBool false) /\
    field "temperature" v = Some (PInt 0) /\
    field "status_code" v = Some (PInt (status_code r)).
Proof.
  intros Hp Ht Hj Hgo Hgd Hext Hrun Htemp Hlen Hv. rewrite fetch_run.
  destruct (fetch_body_run env w) as (w2 & _ & ->).
  unfold transport_failure in Ht. rewrite Hp in Ht.
  destruct (calculated_elapsed_seconds_ok _ Hv) as [z Hz].
  rewrite bind_run, Hp. cbn [lift].
  do 2 (rewrite bind_run; unfold raise_for_status at 1; rewrite Ht; cbn [mret M_ret]).
  rewrite bind_run, Hj. cbn [lift].
  rewrite bind_run, (py_getitem_contains _ _ _ Hgo). cbn [lift].
  rewrite bind_run, (bind_run (lift (py_getitem j "ok"))), Hgo. cbn [lift].
  rewrite (py_getitem_contains _ _ _ Hgd).
  rewrite bind_run. cbn [lift]. rewrite bind_run, Hgd. cbn [lift].
  rewrite bind_run, Hz. cbn [lift].
  rewrite bind_run. cbn [lift py_get].
  rewrite bind_run, Hext. cbn [lift default].
  rewrite bind_run. cbn [lift py_round].
  rewrite bind_run, Hlen. cbn [lift py_truediv float_of_int of_ratio res_bind fis_zero fdiv xorb].
  rewrite bind_run, Hrun. cbn [lift default].
  rewrite bind_run, Htemp. cbn [lift default].
  rewrite bind_run. cbn [lift py_format_1f float_of_int of_ratio res_bind].
  rewrite bind_run. cbn [log emit modify mret M_ret fst].
  eexists. split; [reflexivity |].
  cbn [field dict_lookup String.eqb Ascii.eqb Bool.eqb].
  repeat split; reflexivity.
Qed.

Lemma fetch_missing_fields_default_witness :
  let body := PDict [("ok", PDict [("data", PDict [("elapsed", PInt 7)])])] in
  let env := FetchEnv (Ok []) (Ok (Response 200 (Ok body)))
                      (datetime_utc 2025 8 12 9 0 0) (datetime_utc 2025 8 12 9 0 1) in
  exists v,
    fst (fetch_sensor_data env (main_monitor ∅)) = Ok v /\
    field "change_in_length_mm" v = Some (PInt 0) /\
    field "strain_percent" v = Some (PFloat (S754_zero false)) /\
    field "running" v = Some (PBool false) /\
    field "temperature" v = Some (PInt 0) /\
    field "status_code" v = Some (PInt 200).
Proof.
  intros body env.
  eapply (fetch_missing_fields_default env (main_monitor ∅)
            (Response 200 (Ok body)) body).
  - reflexivity.
  - reflexivity.
  - reflexivity.
  - reflexivity.
  - reflexivity.
  - reflexivity.
  - reflexivity.
  - reflexivity.
  - vm_compute. reflexivity.
  - unfold valid_instant. vm_compute. split; discriminate.
Defined.




(** X8. A fetch works on the credentials and the log only: it leaves every
    file, the journal's path, the specimen length and the cycle counter as
    they were, and it never sleeps. *)
Theorem fetch_leaves_files (env : fetch_env) (w : world) :
  let w' := snd (fetch_sensor_data env w) in
  files w' = files w /\
  output_file w' = output_file w /\
  original_length_mm w' = original_length_mm w /\
  fetch_count w' = fetch_count w /\
  sleeps (trace w') = sleeps (trace w).
Proof.
  cbn zeta. pose proof (fetch_outside env w) as H. unfold outside_fetch in H.
  injection H as H1 H2 H3 H4 H5 H6. auto.
Qed.

(* ===================================================================== *)
(** * Further properties of the journal                                   *)
(* ===================================================================== *)

Lemma sample_row_getitems (v : pyval) :
  match sample_row v with
  | Some r => True
  | None =>
      exists e, is_python_error e = true /\
        (py_getitem v "date" = Raise e \/
         exists date, py_getitem v "date" = Ok date /\
           (py_getitem v "elapsed_seconds" = Raise e \/
            exists el, py_getitem v "elapsed_seconds" = Ok el /\
              (py_getitem v "change_in_length_mm" = Raise e \/
               exists ch, py_getitem v "change_in_length_mm" = Ok ch /\
                 py_getitem v "strain_percent" = Raise e)))
  end.
Proof.
  unfold sample_row.
  destruct v; try (exists TypeError; split; [reflexivity | left; reflexivity]).
  cbn [field py_getitem].
  destruct (dict_lookup "date" d) as [date |];
    [| exists KeyError; split; [reflexivity | left; reflexivity]].
  destruct (dict_lookup "elapsed_seconds" d) as [el |];
    [| exists KeyError; split; [reflexivity |]; right; eauto].
  destruct (dict_lookup "change_in_length_mm" d) as [ch |];
    [| exists KeyError; split; [reflexivity |]; right; eexists; split; eauto].
  destruct (dict_lookup "strain_percent" d) as [st |]; [exact I |].
  exists KeyError. split; [reflexivity |].
  right. eexists. split; [reflexivity |]. right. eexists. split; [reflexivity |].
  right. eauto.
Qed.

(** [save_data] on data that lacks one of the four cells: the journal is
    opened (and created when absent) but nothing is written and the error
    is logged. *)
Lemma save_data_incomplete (data : pyval) (w : world) :
  sample_row data = None ->
  exists e, is_python_error e = true /\
    save_data None data w =
      (Ok tt,
       set_trace (trace w ++ [Log ERROR (ErrorSaving e)])
         (set_files (<[output_file w := journal w]> (files w)) w)).
Proof.
  intros Hr. pose proof (sample_row_getitems data) as H. rewrite Hr in H.
  destruct H as (e & He & H). exists e. split; [exact He |].
  unfold save_data. rewrite try_except_Exception, bind_run.
  cbn [open_file mret M_ret]. rewrite bind_run. cbn [modify].
  destruct H as [H | (date & Hd & H)]; [now rewrite bind_run, H |].
  rewrite bind_run, Hd. cbn [lift].
  destruct H as [H | (el & Hel & H)]; [now rewrite bind_run, H |].
  rewrite bind_run, Hel. cbn [lift].
  destruct H as [H | (ch & Hch & H)]; [now rewrite bind_run, H |].
  rewrite bind_run, Hch. cbn [lift]. now rewrite bind_run, H.
Qed.


(** X10. Data that lacks one of the cells "date", "elapsed_seconds",
    "change_in_length_mm", "strain_percent" (or is no dictionary) writes no
    row: the lookup error is logged and the rows of the journal stay as
    they were, though opening in append mode has created the file if it
    was absent. *)
Theorem save_data_missing_cell (data : pyval) (w : world) :
  sample_row data = None ->
  let w' := snd (save_data None data w) in
  journal w' = journal w /\
  is_Some (files w' !! output_file w) /\
  exists e, is_python_error e = true /\
            save_errors (trace w') = save_errors (trace w) ++ [e].
Proof.
  intros Hr. cbn zeta. destruct (save_data_incomplete data w Hr) as (e & He & ->).
  cbn [snd files trace set_trace set_files]. split; [| split].
  - unfold journal at 1. cbn. now rewrite lookup_insert_eq.
  - rewrite lookup_insert_eq. eauto.
  - exists e. split; [exact He |]. now rewrite save_errors_snoc.
Qed.

Lemma save_data_missing_cell_witness :
  let data := PDict [("date", PStr "12/08"); ("elapsed_seconds", PInt 5)] in
  let w' := snd (save_data None data (main_monitor ∅)) in
  journal w' = [] /\ is_Some (files w' !! "sensor_data.csv").
Proof.
  intros data w'.
  destruct (save_data_missing_cell data (main_monitor ∅) eq_refl) as (Hj & Hf & _).
  split; [exact Hj | exact Hf].
Defined.

(** X11. The row written for an error record holds the date, the elapsed
    seconds and two zeros, whatever the error kind: the tag of the status
    code is not persisted. *)
Theorem save_data_error_row (kind : string) (t : instant) (z : Z) (w : world) :
  journal (snd (save_data None (error_sample kind t z) w)) =
    journal w ++ [[PStr (strftime_dm_bst t); PInt z;
                   PFloat (S754_zero false); PFloat (S754_zero false)]].
Proof.
  rewrite (save_data_run None (error_sample kind t z)
             [PStr (strftime_dm_bst t); PInt z;
              PFloat (S754_zero false); PFloat (S754_zero false)] w)
    by reflexivity.
  apply journal_insert.
Qed.

(** X12. When the journal is absent at the time a sample is saved, the
    append creates it with the row alone: no header is written then, nor
    by a later initialisation, which finds the file present. *)
Theorem save_data_creates_without_header (data : pyval) (r : row)
    (o : option exn) (w : world) :
  files w !! output_file w = None ->
  sample_row data = Some r ->
  let w' := snd (save_data None data w) in
  journal w' = [r] /\ init_csv_file o w' = (Ok tt, w').
Proof.
  intros Hnone Hr. cbn zeta. rewrite (save_data_run None data r w Hr).
  cbn [snd]. unfold journal at 2. rewrite Hnone. cbn [default app].
  split; [apply journal_insert |].
  apply init_csv_file_existing. cbn. rewrite lookup_insert_eq. eauto.
Qed.

Lemma save_data_creates_without_header_witness :
  let w' := snd (save_data None (error_sample "FETCH_ERROR" experiment_start 0)
                   (main_monitor ∅)) in
  journal w' = [[PStr "11/08"; PInt 0;
                 PFloat (S754_zero false); PFloat (S754_zero false)]].
Proof.
  intros w'.
  destruct (save_data_creates_without_header
              (error_sample "FETCH_ERROR" experiment_start 0)
              [PStr "11/08"; PInt 0; PFloat (S754_zero false); PFloat (S754_zero false)]
              None (main_monitor ∅)) as [Hj _].
  - reflexivity.
  - reflexivity.
  - exact Hj.
Defined.

(* ===================================================================== *)
(** * Further properties of the credentials                               *)
(* ===================================================================== *)











(** X14. The start-up load never raises: a failure of the cookie store is
    logged as an error, followed by the notice that the default key stays
    in use, and changes nothing else; on success the number of cookies
    logged is the number of cookies of the platform's domain. *)
Theorem load_chrome_cookies_never_raises (chrome0 : res (list cookie))
    (w : world) :
  let w' := snd (load_chrome_cookies chrome0 w) in
  fst (load_chrome_cookies chrome0 w) = Ok tt /\
  files w' = files w /\
  match chrome0 with
  | Raise e =>
      w' = set_trace (trace w ++ [Log ERROR (ErrorLoadingCookies e);
                                  Log INFO ContinuingWithDefault]) w
  | Ok cs => Log INFO (LoadedCookies (length (ou_cookies_of cs))) ∈ trace w'
  end.
Proof.
  cbn zeta. split; [| split].
  - unfold load_chrome_cookies. rewrite try_except_Exception.
    match goal with |- fst (match ?x with _ => _ end) = _ =>
      destruct x as [[[] | e] w'] end; reflexivity.
  - pose proof (load_chrome_cookies_storage chrome0 w) as H.
    unfold storage in H. now injection H.
  - unfold load_chrome_cookies. rewrite try_except_Exception, bind_run. cbn [lift].
    destruct chrome0 as [cs | e].
    + rewrite bind_run. unfold ou_cookies_of.
      destruct (load_loop_spec (filter (fun c => is_ou_cookie c = true) cs) 0 None w)
        as (w' & -> & _).
      rewrite bind_run. cbn [log emit modify Nat.add].
      destruct (last _) as [v |]; [destruct (String.eqb v "") |];
        repeat (rewrite bind_run; cbn [form_data_set modify log emit]);
        cbn [snd trace set_trace set_form_data]; set_solver.
    + rewrite bind_run. cbn [log emit modify snd].
      unfold set_trace. cbn. now rewrite <- app_assoc.
Qed.

Lemma session_cookies_of_last (pre post : list cookie) (c : cookie) :
  is_ou_cookie c = true -> is_session_cookie c = true ->
  session_cookies_of post = [] ->
  final_token (pre ++ c :: post) = Some (c_value c).
Proof.
  intros Hou Hs Hpost. unfold final_token.
  assert (H : session_cookies_of (pre ++ c :: post) = session_cookies_of pre ++ [c]).
  { unfold session_cookies_of in *. rewrite !filter_app. f_equal.
    rewrite filter_cons, decide_True by exact Hou.
    rewrite filter_cons, decide_True by exact Hs. now rewrite Hpost. }
  rewrite H, fmap_app. cbn. apply last_snoc.
Qed.

(** X15. With several session cookies in the store the last one wins: the
    token after a refresh is the value of the last cookie of the platform
    whose name contains "session" or is "s"; the start-up load stores the
    same value unless it is empty, in which case it keeps the token. *)
Theorem last_session_cookie_wins (pre post : list cookie) (c : cookie)
    (w : world) :
  is_ou_cookie c = true -> is_session_cookie c = true ->
  session_cookies_of post = [] ->
  let cs := pre ++ c :: post in
  token (snd (update_session_key_from_cookies (Ok cs) w)) = Some (c_value c) /\
  token (snd (load_chrome_cookies (Ok cs) w)) =
    (if String.eqb (c_value c) "" then token w else Some (c_value c)).
Proof.
  intros Hou Hs Hpost. cbn zeta. unfold token.
  rewrite update_form_data, load_form_data.
  rewrite (session_cookies_of_last pre post c Hou Hs Hpost).
  split; [apply lookup_insert_eq |].
  destruct (String.eqb (c_value c) ""); [reflexivity | apply lookup_insert_eq].
Qed.

Lemma last_session_cookie_wins_witness :
  token (snd (update_session_key_from_cookies
                (Ok ([cookie_a] ++ cookie_b :: [Cookie "theme" "dark" ".open.ac.uk" "/"]))
                (main_monitor ∅))) = Some "B".
Proof.
  destruct (last_session_cookie_wins [cookie_a]
              [Cookie "theme" "dark" ".open.ac.uk" "/"] cookie_b (main_monitor ∅))
    as [H _].
  - reflexivity.
  - reflexivity.
  - reflexivity.
  - exact H.
Defined.

Lemma fetch_form_data (env : fetch_env) (w : world) :
  form_data (snd (fetch_sensor_data env w)) =
    form_data (snd (update_session_key_from_cookies (chrome env) w)).
Proof.
  unfold fetch_sensor_data, fetch_body.
  rewrite (try_except_bind_ok _ _ _ _ _ _ (update_run (chrome env) w)).
  set (w1 := snd (update_session_key_from_cookies (chrome env) w)).
  rewrite (try_except_bind_ok get _ _ w1 w1 w1 eq_refl).
  rewrite (try_except_bind_ok (emit (Post api_url (form_data w1))) _ _ w1
             (set_trace (trace w1 ++ [Post api_url (form_data w1)]) w1) tt eq_refl).
  match goal with |- form_data (snd (try_except ?c ?hs ?w2)) = _ =>
    assert (Hk : keeps form_data (try_except c hs)) end.
  { unfold create_error_record, raise_for_status, log, emit.
    repeat first [ apply keeps_modify; reflexivity | keeps_step ]. }
  now rewrite Hk.
Qed.

(** X16. Of the form data only the field 's' ever changes: every other
    field is the same after a refresh, after the start-up load and after a
    fetch, and the request a fetch posts carries it unchanged. *)
Theorem form_data_fixed_fields (chrome0 : res (list cookie)) (env : fetch_env)
    (w : world) (k : string) :
  k <> "s" ->
  form_data (snd (update_session_key_from_cookies chrome0 w)) !! k = form_data w !! k /\
  form_data (snd (load_chrome_cookies chrome0 w)) !! k = form_data w !! k /\
  form_data (snd (fetch_sensor_data env w)) !! k = form_data w !! k /\
  exists d, posted (snd (fetch_sensor_data env w)) = posted w ++ [d] /\
            d !! k = form_data w !! k.
Proof.
  intros Hk.
  assert (Hu : forall c, form_data (snd (update_session_key_from_cookies c w)) !! k
                         = form_data w !! k).
  { intros c. rewrite update_form_data. destruct c as [cs | e]; [| reflexivity].
    destruct (final_token cs); [| reflexivity].
    now rewrite lookup_insert_ne by congruence. }
  split; [apply Hu |]. split; [| split].
  - rewrite load_form_data. destruct chrome0 as [cs | e]; [| reflexivity].
    destruct (final_token cs) as [v |]; [| reflexivity].
    destruct (String.eqb v ""); [reflexivity |].
    now rewrite lookup_insert_ne by congruence.
  - rewrite fetch_form_data. apply Hu.
  - eexists. split; [apply fetch_posts | apply Hu].
Qed.

Lemma form_data_fixed_fields_witness :
  form_data (snd (fetch_sensor_data
                    (FetchEnv (Ok [cookie_a]) (Raise ConnectionError) 0 0)
                    (main_monitor ∅))) !! "i" = Some "t193_creep_capture".
Proof.
  destruct (form_data_fixed_fields (Ok [])
              (FetchEnv (Ok [cookie_a]) (Raise ConnectionError) 0 0)
              (main_monitor ∅) "i") as (_ & _ & H & _).
  - discriminate.
  - rewrite H. reflexivity.
Defined.

(* ===================================================================== *)
(** * Further properties of the poll loop                                 *)
(* ===================================================================== *)

(** The trace of a cycle: that of its fetch, followed by what the rest of
    the cycle logs. *)
Lemma cycle_trace (end_time interval : Z) (i : float) (env : cycle_env)
    (w : world) :
  valid_clock (fetch env) -> float_of_int interval = Ok i ->
  let w' := snd (cycle end_time interval env w) in
  fst (cycle end_time interval env w) = Ok tt /\
  form_data w' = form_data (snd (fetch_sensor_data (fetch env) w)) /\
  trace w' = trace (snd (fetch_sensor_data (fetch env) w))
               ++ cycle_tail end_time i (fetch_count w) env.
Proof.
  intros Hv Hi. cbn zeta.
  destruct (fetch_returns_sample _ w Hv) as (d & Hd & Hk).
  destruct (sample_row_of_keys d Hk) as [r Hr].
  pose proof (fetch_outside (fetch env) w) as Ho.
  destruct (fetch_sensor_data (fetch env) w) as [res w1] eqn:Hf.
  cbn [fst snd] in Hd, Ho |- *. subst res.
  unfold outside_fetch in Ho. injection Ho as _ _ Hcount _ _ _.
  destruct (cycle end_time interval env w) as [rr w'] eqn:Hc.
  unfold cycle in Hc. rewrite bind_run, Hf in Hc.
  replace (py_truthy (PDict d)) with true in Hc
    by (destruct d; [discriminate Hk | reflexivity]).
  rewrite bind_run, (save_data_run _ _ r) in Hc by exact Hr.
  rewrite bind_run in Hc. cbn [modify] in Hc. rewrite bind_run in Hc.
  unfold sleep_time in Hc. rewrite Hi in Hc. cbn [res_bind lift] in Hc.
  rewrite bind_run in Hc. cbn [get] in Hc. rewrite bind_run in Hc.
  unfold cycle_tail, cycle_sleep, py_max0 in *.
  set (x := fsub i (fsub (time_end env) (time_start env))) in *.
  destruct (open_append env) as [e |];
    cbn [fetch_count set_fetch_count set_trace set_files] in Hc;
    rewrite Hcount in Hc;
    (destruct (_ =? _)%nat; [cbn [log emit modify] in Hc | cbn [mret M_ret] in Hc]);
    rewrite bind_run in Hc;
    (destruct (flt (S754_zero false) x) eqn:Hx;
       cbn [py_gt0 lift] in Hc; rewrite ?Hx in Hc;
       cbn [Z.ltb Z.compare emit modify mret M_ret] in Hc);
    injection Hc as <- <-;
    cbn [fst snd form_data trace set_files set_trace set_fetch_count map app];
    rewrite <- ?app_assoc; cbn [app]; rewrite ?app_nil_r; auto.
Qed.

Lemma keeps_emit_progress (ev : event) :
  progress_lines [ev] = [] ->
  keeps (fun w => progress_lines (trace w)) (emit ev).
Proof.
  intros H. apply keeps_modify. intros w. cbn [trace set_trace].
  unfold progress_lines in *. now rewrite omap_app, H, app_nil_r.
Qed.

Ltac keeps_progress :=
  unfold log;
  repeat first
    [ apply keeps_emit_progress; reflexivity
    | apply keeps_modify; reflexivity
    | keeps_step ].

Lemma update_loop_progress (cs : list cookie) (u : bool) :
  keeps (fun w => progress_lines (trace w)) (update_loop cs u).
Proof.
  revert u. induction cs as [| c cs IH]; intros u; cbn [update_loop].
  - apply keeps_ret.
  - unfold session_cookies_set, form_data_set. keeps_progress; apply IH.
Qed.

Lemma fetch_progress (env : fetch_env) :
  keeps (fun w => progress_lines (trace w)) (fetch_sensor_data env).
Proof.
  unfold fetch_sensor_data, fetch_body, update_session_key_from_cookies,
    create_error_record, raise_for_status.
  repeat first [ apply update_loop_progress | progress keeps_progress ].
Qed.

Lemma progress_due_succ (count cycles : nat) :
  progress_due count (S cycles) =
    (if (S count mod 120 =? 0)%nat then [S count] else [])
      ++ progress_due (S count) cycles.
Proof.
  unfold progress_due. cbn [seq]. rewrite filter_cons.
  destruct (S count mod 120 =? 0)%nat eqn:Hm.
  - apply Nat.eqb_eq in Hm. now rewrite decide_True by exact Hm.
  - apply Nat.eqb_neq in Hm. now rewrite decide_False by exact Hm.
Qed.

(** The requests and the progress lines of the loop. *)
Lemma while_loop_trace (end_time interval : Z) (i : float)
    (envs : list cycle_env) (w : world) :
  Forall (fun env => valid_clock (fetch env)) (cycles_run end_time envs) ->
  float_of_int interval = Ok i ->
  let w' := snd (while_loop end_time interval envs w) in
  length (posted w') =
    (length (posted w) + length (cycles_run end_time envs))%nat /\
  progress_lines (trace w') =
    progress_lines (trace w)
      ++ progress_due (fetch_count w) (length (cycles_run end_time envs)).
Proof.
  intros Hv Hi. revert w Hv.
  induction envs as [| env envs IH]; intros w Hv; cbn [while_loop cycles_run] in *.
  - cbn. rewrite Nat.add_0_r, app_nil_r. auto.
  - destruct (loop_now env <? end_time).
    + apply Forall_cons in Hv as [Hv1 Hv].
      destruct (cycle_trace end_time interval i env w Hv1 Hi) as (Hr & _ & Ht).
      destruct (cycle_run end_time interval i env w Hv1 Hi)
        as (_ & _ & w1 & _ & _ & _ & Hc & _ & _ & Hn & _).
      rewrite Hc in Hr, Ht. cbn [fst snd] in Ht.
      cbn zeta. rewrite bind_run, Hc.
      destruct (IH w1 Hv) as [Hp Hg]. cbn zeta in Hp, Hg.
      rewrite Hp, Hg, Hn. cbn [length]. rewrite progress_due_succ.
      assert (Hp1 : posted w1 =
                posted w ++ [form_data (snd (update_session_key_from_cookies
                                               (chrome (fetch env)) w))]).
      { unfold posted. rewrite Ht. unfold posts. rewrite omap_app.
        fold (posts (trace (snd (fetch_sensor_data (fetch env) w)))).
        fold (posted (snd (fetch_sensor_data (fetch env) w))).
        rewrite fetch_posts.
        replace (omap _ (cycle_tail end_time i (fetch_count w) env)) with (@nil (gmap string string)).
        - now rewrite app_nil_r.
        - unfold cycle_tail, cycle_sleep.
          destruct (open_append env); destruct (_ =? _)%nat; destruct (flt _ _);
            reflexivity. }
      assert (Hg1 : progress_lines (trace w1) =
                progress_lines (trace w)
                  ++ (if (S (fetch_count w) mod 120 =? 0)%nat
                      then [S (fetch_count w)] else [])).
      { rewrite Ht. unfold progress_lines at 1. rewrite omap_app.
        fold (progress_lines (trace (snd (fetch_sensor_data (fetch env) w)))).
        rewrite (fetch_progress (fetch env) w). f_equal.
        unfold cycle_tail, cycle_sleep.
        destruct (open_append env); destruct (_ =? _)%nat; destruct (flt _ _);
          reflexivity. }
      rewrite Hp1, Hg1, length_app. cbn [length]. rewrite <- app_assoc.
      split; [lia | reflexivity].
    + cbn. rewrite Nat.add_0_r, app_nil_r. auto.
Qed.

Lemma run_for_duration_unfold (days interval start_time : Z)
    (envs : list cycle_env) (w : world) :
  let end_time := start_time + days * us_per_day in
  let w0 := set_trace
              (trace w ++ [Log INFO (StartingMonitor days); Log INFO (ApiUrl api_url);
                           Log INFO (Interval interval); Log INFO (StartTime start_time);
                           Log INFO (EndTime end_time)])
              (set_fetch_count 0 w) in
  run_for_duration days interval start_time envs w =
    (Ok tt,
     let w1 := match while_loop end_time interval envs w0 with
               | (Ok _, w1) => w1
               | (Raise e, w1) =>
                   set_trace (trace w1 ++ [Log ERROR (UnexpectedError e)]) w1
               end in
     set_trace (trace w1 ++ [Log INFO (MonitoringCompleted (fetch_count w1));
                             Log INFO (DataSavedTo (output_file w1))]) w1).
Proof.
  cbn zeta. unfold run_for_duration.
  rewrite bind_run. cbn [modify].
  do 5 (rewrite bind_run; cbn [log emit modify]).
  rewrite bind_run, try_except_Exception.
  destruct w. unfold set_trace, set_fetch_count.
  cbn [trace output_file original_length_mm form_data session_cookies
       fetch_count files].
  rewrite <- !app_assoc. cbn [app].
  match goal with |- context [while_loop ?e interval envs ?w0] =>
    destruct (while_loop e interval envs w0) as [[[] | e'] w1] end.
  - rewrite bind_run. cbn [get]. rewrite bind_run. unfold log, emit, modify.
    cbn [trace set_trace output_file fetch_count]. rewrite <- !app_assoc. reflexivity.
  - cbn [log emit modify]. rewrite bind_run. cbn [get]. rewrite bind_run.
    unfold log, emit, modify.
    cbn [trace set_trace output_file fetch_count]. rewrite <- !app_assoc. reflexivity.
Qed.



(** X18. When the deadline has passed at the first test of the loop (or
    no iteration is observed), the run fetches nothing: no request is
    posted, no file is touched, there is no sleep, the credentials are as
    they were and the summary counts zero cycles. *)
Theorem run_after_deadline (days interval start_time : Z)
    (envs : list cycle_env) (w : world) :
  valid_deadline days start_time ->
  match envs with
  | env :: _ => start_time + days * us_per_day <= loop_now env
  | [] => True
  end ->
  let w' := snd (run_for_duration days interval start_time envs w) in
  files w' = files w /\ form_data w' = form_data w /\
  session_cookies w' = session_cookies w /\
  posted w' = posted w /\ sleeps (trace w') = sleeps (trace w) /\
  fetch_count w' = 0%nat /\
  Log INFO (MonitoringCompleted 0) ∈ trace w'.
Proof.
  intros _ H. cbn zeta. rewrite run_for_duration_unfold. cbn zeta.
  assert (Hw : forall w0, while_loop (start_time + days * us_per_day) interval envs w0
                          = (Ok tt, w0)).
  { intros w0. destruct envs as [| env envs]; [reflexivity |]. cbn [while_loop].
    now rewrite (proj2 (Z.ltb_ge _ _)) by exact H. }
  rewrite Hw. cbn [snd files form_data session_cookies trace fetch_count
                   set_trace set_fetch_count].
  unfold posted. cbn [trace set_trace]. unfold posts, sleeps.
  rewrite !omap_app. cbn. rewrite !app_nil_r.
  repeat split; try reflexivity. set_solver.
Qed.

Lemma run_after_deadline_witness :
  let w := main_monitor earlier_journal in
  let w' := snd (run_for_duration 0 30 (datetime_utc 2025 8 12 10 0 0)
                   [scenario_cycle 12] w) in
  files w' = files w /\ posted w' = posted w.
Proof.
  intros w w'.
  destruct (run_after_deadline 0 30 (datetime_utc 2025 8 12 10 0 0)
              [scenario_cycle 12] w) as (Hf & _ & _ & Hp & _).
  - repeat split; vm_compute; discriminate.
  - vm_compute. discriminate.
  - split; assumption.
Defined.

(** X19. A run posts exactly one request per cycle: after it the number of
    requests posted has grown by the number of cycles run (a failed cycle
    is not retried within the cycle). The run is one whose deadline can be
    computed and whose sleeps [time.sleep] accepts. *)
Theorem one_request_per_cycle (days interval start_time : Z) (i : float)
    (envs : list cycle_env) (w : world) :
  let ran := cycles_run (start_time + days * us_per_day) envs in
  valid_deadline days start_time ->
  Forall (fun env => valid_clock (fetch env)) ran ->
  float_of_int interval = Ok i ->
  sleeps_accepted i ran ->
  let w' := snd (run_for_duration days interval start_time envs w) in
  length (posted w') = (length (posted w) + length ran)%nat.
Proof.
  cbn zeta. intros _ Hv Hi _. rewrite run_for_duration_unfold. cbn zeta.
  match goal with |- context [while_loop ?e interval envs ?w0] =>
    pose proof (while_loop_trace e interval i envs w0 Hv Hi) as [Hp _];
    destruct (while_loop_run e interval i envs w0 Hv Hi) as (rows & w1 & Hrun & _)
  end.
  cbn zeta in Hp. rewrite Hrun in *. cbn [snd] in *.
  unfold posted in *. cbn [trace set_trace set_fetch_count] in *.
  unfold posts in *. rewrite !omap_app in *. cbn in Hp |- *.
  rewrite !app_nil_r in *. exact Hp.
Qed.

Lemma one_request_per_cycle_witness :
  length (posted (snd (run_for_duration 7 30 (datetime_utc 2025 8 12 10 0 0 - 1)
                         [scenario_cycle 35; scenario_cycle 12]
                         (main_monitor ∅)))) = 2%nat.
Proof.
  apply (one_request_per_cycle 7 30 (datetime_utc 2025 8 12 10 0 0 - 1)
           (of_ratio 30 1) [scenario_cycle 35; scenario_cycle 12] (main_monitor ∅)).
  - repeat split; vm_compute; discriminate.
  - repeat constructor; vm_compute; discriminate.
  - reflexivity.
  - vm_compute. reflexivity.
Defined.

Lemma no_multiple_below (n : nat) :
  (n < 120)%nat -> filter (fun c => (c mod 120 = 0)%nat) (seq 1 n) = [].
Proof.
  intros Hn. destruct (filter _ (seq 1 n)) as [| c l] eqn:Hf; [reflexivity |].
  assert (Hc : c ∈ filter (fun c => (c mod 120 = 0)%nat) (seq 1 n))
    by (rewrite Hf; left).
  apply list_elem_of_filter in Hc as [Hm Hc]. apply elem_of_seq in Hc.
  rewrite Nat.mod_small in Hm by lia. lia.
Qed.

(** X20. A progress line is logged after every 120th cycle of a run and at
    no other time: the counts of the progress lines of a run are the
    multiples of 120 up to the number of cycles, so a run of fewer than 120
    cycles logs none. The run is one whose deadline can be computed and
    whose sleeps [time.sleep] accepts. *)
Theorem progress_every_120_cycles (days interval start_time : Z) (i : float)
    (envs : list cycle_env) (w : world) :
  let ran := cycles_run (start_time + days * us_per_day) envs in
  valid_deadline days start_time ->
  Forall (fun env => valid_clock (fetch env)) ran ->
  float_of_int interval = Ok i ->
  sleeps_accepted i ran ->
  let w' := snd (run_for_duration days interval start_time envs w) in
  progress_lines (trace w') =
    progress_lines (trace w)
      ++ filter (fun c => (c mod 120 = 0)%nat) (seq 1 (length ran)) /\
  ((length ran < 120)%nat -> progress_lines (trace w') = progress_lines (trace w)).
Proof.
  cbn zeta. intros _ Hv Hi _.
  assert (Hmain : progress_lines
            (trace (snd (run_for_duration days interval start_time envs w))) =
          progress_lines (trace w)
            ++ progress_due 0 (length (cycles_run (start_time + days * us_per_day) envs))).
  { rewrite run_for_duration_unfold. cbn zeta.
    match goal with |- context [while_loop ?e interval envs ?w0] =>
      pose proof (while_loop_trace e interval i envs w0 Hv Hi) as [_ Hg];
      destruct (while_loop_run e interval i envs w0 Hv Hi) as (rows & w1 & Hrun & _)
    end.
    cbn zeta in Hg. rewrite Hrun in *. cbn [snd] in *.
    cbn [trace set_trace set_fetch_count fetch_count] in *.
    unfold progress_lines in *. rewrite !omap_app in *. cbn in Hg |- *.
    rewrite !app_nil_r in *. exact Hg. }
  split; [exact Hmain |].
  intros Hlt. rewrite Hmain. unfold progress_due.
  rewrite no_multiple_below by exact Hlt. apply app_nil_r.
Qed.

Lemma progress_every_120_cycles_witness :
  progress_lines
    (trace (snd (run_for_duration 7 30 (datetime_utc 2025 8 12 10 0 0 - 1)
                   [scenario_cycle 35; scenario_cycle 12] (main_monitor ∅)))) = [].
Proof.
  destruct (progress_every_120_cycles 7 30 (datetime_utc 2025 8 12 10 0 0 - 1)
              (of_ratio 30 1) [scenario_cycle 35; scenario_cycle 12] (main_monitor ∅))
    as [_ H].
  - repeat split; vm_compute; discriminate.
  - repeat constructor; vm_compute; discriminate.
  - reflexivity.
  - vm_compute. reflexivity.
  - apply H. vm_compute. lia.
Defined.

Lemma load_chrome_cookies_returns (chrome0 : res (list cookie))
    (w : world) :
  fst (load_chrome_cookies chrome0 w) = Ok tt /\
  storage (snd (load_chrome_cookies chrome0 w)) = storage w.
Proof.
  split; [| apply load_chrome_cookies_storage].
  unfold load_chrome_cookies. rewrite try_except_Exception.
  match goal with |- fst (match ?x with _ => _ end) = _ =>
    destruct x as [[[] | e] w'] end; reflexivity.
Qed.

(** X21. The constructor ends with the cookie load and the initialisation
    of the journal. A failure of the cookie store never stops it, but a
    journal that is absent and cannot be created does: the error of [open]
    reaches the caller and no file is written. When the journal exists the
    initialisation opens nothing, and in every case the files that exist
    stay as they were. *)
Theorem init_raises_on_unwritable_journal (chrome0 : res (list cookie))
    (o : option exn) (w : world) :
  let result := init chrome0 o w in
  fst result =
    match files w !! output_file w, o with
    | None, Some e => Raise e
    | _, _ => Ok tt
    end /\
  files (snd result) =
    match files w !! output_file w, o with
    | None, None => <[output_file w := [csv_header]]> (files w)
    | _, _ => files w
    end.
Proof.
  cbn zeta. unfold init. rewrite bind_run.
  destruct (load_chrome_cookies_returns chrome0 w) as [Hr Hs].
  destruct (load_chrome_cookies chrome0 w) as [rr w1]. cbn [fst snd] in *. subst rr.
  unfold storage in Hs. injection Hs as Hfile Hfiles.
  unfold init_csv_file. rewrite bind_run. cbn [get]. rewrite Hfile, Hfiles.
  destruct (files w !! output_file w) as [rows |] eqn:Hf.
  - rewrite bool_decide_eq_true_2 by eauto. cbn. now rewrite Hfiles.
  - rewrite bool_decide_eq_false_2 by (intros [? ?]; discriminate).
    destruct o as [e |]; cbn [open_file].
    + rewrite bind_run. cbn [raise fst snd]. now rewrite Hfiles.
    + rewrite bind_run. cbn [mret M_ret modify fst snd files set_files].
      now rewrite Hfile, Hfiles.
Qed.
